(** * SIEM AI assistant: alert enrichment pipeline

    A shallow embedding of [connectors/elasticsearch.py], [connectors/kibana.py],
    [connectors/ai.py] and [main.py], and the properties of the pipeline that
    the design document states about them.

    Python values are JSON-shaped data; dictionaries are finite maps keyed by
    strings.  Code that talks to Elasticsearch, Kibana, the chat-completion
    service or the log file runs in a state-and-exception monad over a world
    that records every external call together with its outcome, and prints to
    a standard output kept as a list of lines.  The external systems are an
    environment of oracles, each answering from the history of calls so far. *)

From Stdlib Require Import QArith Ascii.
From stdpp Require Import gmap strings list fin_maps pretty.

Local Open Scope string_scope.
Local Open Scope list_scope.
Local Open Scope nat_scope.
Local Open Scope stdpp_scope.

(** ** Python values *)

#[local] Unset Elimination Schemes.
Inductive pyval :=
| PNone
| PBool (b : bool)
| PInt (z : Z)
| PStr (s : string)
| PList (l : list pyval)
| PDict (d : gmap string pyval).
#[local] Set Elimination Schemes.

Abbreviation pydict := (gmap string pyval).

(** [type(v).__name__], as it appears in the message of an [AttributeError]. *)
Definition type_name (v : pyval) : string :=
  match v with
  | PNone => "NoneType"
  | PBool _ => "bool"
  | PInt _ => "int"
  | PStr _ => "str"
  | PList _ => "list"
  | PDict _ => "dict"
  end.

(** ** Exceptions *)

Inductive exn :=
| KeyError (key : string)
| IndexError (msg : string)
| AttributeError (tyname attr : string)
| ValueError (msg : string)
| ExternalError (msg : string).

(** [str(e)] for the exceptions the program raises itself; a library error
    carries its own message. *)
Definition exn_str (e : exn) : string :=
  match e with
  | KeyError key => "'" +:+ key +:+ "'"
  | IndexError msg => msg
  | AttributeError tyname attr =>
      "'" +:+ tyname +:+ "' object has no attribute '" +:+ attr +:+ "'"
  | ValueError msg => msg
  | ExternalError msg => msg
  end.

(** ** External systems *)

(** One hit of a search response: [hit['_id']] and [hit['_source']]. *)
Record Hit := { _id : string; _source : pyval }.

(** The part of a search or scroll response the connector reads:
    [resp['_scroll_id']] and [resp['hits']['hits']]. *)
Record SearchResponse := { _scroll_id : string; hits : list Hit }.

Record message := { role : string; content : string }.

(** A chat completion: the [message.content] of each choice, and what
    [model_dump()] gives for the log. *)
Record ChatResponse := { choices : list pyval; model_dump : pyval }.

(** Every call that leaves the process, with its arguments and what came back
    ([inl e]: the call raised [e]). The range query of [get_signals] is
    recorded by its window in days. *)
Inductive event :=
| EsSearch (index : string) (days : Z) (scroll : string) (size : nat)
    (r : exn + SearchResponse)
| EsScroll (scroll_id scroll : string) (r : exn + SearchResponse)
| EsClearScroll (scroll_id : string) (r : exn + unit)
| KbnFindRules (url : string) (page per_page : nat) (r : exn + list pyval)
| KbnAddNote (url timeline_id : string) (event_id : pyval) (note : string)
    (r : exn + pyval)
| ChatCreate (model : string) (messages : list message) (temperature : Q)
    (r : exn + ChatResponse)
| LogAppend (file message : string) (data : pyval) (r : exn + unit).

(** The environment: how each external system answers, given the history of
    calls made so far (oldest first). *)
Record Env := {
  es_search : list event → string → Z → string → nat → exn + SearchResponse;
  es_scroll : list event → string → string → exn + SearchResponse;
  es_clear_scroll : list event → string → exn + unit;
  kbn_find_rules : list event → string → nat → nat → exn + list pyval;
  kbn_add_note : list event → string → string → pyval → string → exn + pyval;
  chat_create : list event → string → list message → Q → exn + ChatResponse;
  log_append : list event → string → string → pyval → exn + unit }.

(** Builtins of the Python runtime and of PyYAML that the program applies to
    arbitrary values: [str(v)] as an f-string field renders it, and
    [yaml.dump(v, default_flow_style=False)]. *)
Class Builtins := {
  py_str : pyval → string;
  yaml_dump : pyval → string;
  py_str_PStr : ∀ s, py_str (PStr s) = s }.

(** ** The monad of effects *)

Record World := { history : list event; stdout : list string }.

Inductive res (A : Type) :=
| Ok (a : A)
| Raise (e : exn)
| OutOfFuel.
Arguments Ok {A} a.
Arguments Raise {A} e.
Arguments OutOfFuel {A}.

Definition M (A : Type) : Type := World → res A * World.

#[export] Instance M_ret : MRet M := λ A a w, (Ok a, w).

#[export] Instance M_bind : MBind M := λ A B f m w,
  match m w with
  | (Ok a, w') => f a w'
  | (Raise e, w') => (Raise e, w')
  | (OutOfFuel, w') => (OutOfFuel, w')
  end.

Definition raise {A} (e : exn) : M A := λ w, (Raise e, w).

Definition out_of_fuel {A} : M A := λ w, (OutOfFuel, w).

(** [try: body / except Exception as e: handler e]. *)
Definition try_except {A} (body : M A) (handler : exn → M A) : M A := λ w,
  match body w with
  | (Raise e, w') => handler e w'
  | r => r
  end.

(** [print(line)]. *)
Definition print (line : string) : M unit := λ w,
  (Ok (), {| history := history w; stdout := stdout w ++ [line] |}).

Definition record_event (ev : event) (w : World) : World :=
  {| history := history w ++ [ev]; stdout := stdout w |}.

(** An external call: ask the environment, record the event, return or raise. *)
Definition call {A} (answer : list event → exn + A) (ev : exn + A → event) : M A :=
  λ w,
  let r := answer (history w) in
  let w' := record_event (ev r) w in
  match r with
  | inl e => (Raise e, w')
  | inr a => (Ok a, w')
  end.

(** Truth value of an [Optional[str]] argument. *)
Definition truthy (o : option string) : bool :=
  match o with
  | Some s => negb (String.eqb s "")
  | None => false
  end.

(** ** connectors/elasticsearch.py *)

Module ElasticsearchConnector.

Inductive auth :=
| api_key_auth (api_key : string)
| basic_auth (username password : string).

(** The arguments the [Elasticsearch] client is built from. *)
Record self := { hosts : list string; verify_certs : bool; client_auth : auth }.

(** The constructor of the client library,
    [Elasticsearch(hosts=..., verify_certs=..., **auth)]: it makes no call,
    and raises when it cannot use what it is given (a host that is not a
    full URL, for one). *)
Definition client_constructor : Type := list string → bool → auth → exn + unit.

Definition __init__ (Elasticsearch : client_constructor) (host : string)
    (api_key username password : option string) (verify_ssl : bool) : M self :=
  auth ←
    (if truthy api_key then mret (api_key_auth (default "" api_key))
     else if truthy username && truthy password
          then mret (basic_auth (default "" username) (default "" password))
          else raise (ValueError "Either API key or username/password must be provided"));
  match Elasticsearch [host] verify_ssl auth with
  | inl e => raise e
  | inr _ => mret {| hosts := [host]; verify_certs := verify_ssl; client_auth := auth |}
  end.

Definition record_of_hit (hit : Hit) : pydict :=
  {[ "id" := PStr (_id hit); "source" := _source hit ]}.

Section get_signals.
Context (env : Env).

Definition client_search (index : string) (days : Z) (scroll : string) (size : nat)
  : M SearchResponse :=
  call (λ h, es_search env h index days scroll size) (EsSearch index days scroll size).

Definition client_scroll (scroll_id scroll : string) : M SearchResponse :=
  call (λ h, es_scroll env h scroll_id scroll) (EsScroll scroll_id scroll).

Definition client_clear_scroll (scroll_id : string) : M unit :=
  call (λ h, es_clear_scroll env h scroll_id) (EsClearScroll scroll_id).

(** The [while len(resp['hits']['hits'])] loop; [fuel] bounds the number of
    iterations. *)
Fixpoint scroll_loop (fuel : nat) (scroll_id : string) (resp : SearchResponse)
    (results : list pydict) : M (list pydict) :=
  if length (hits resp) =? 0 then mret results
  else match fuel with
       | 0 => out_of_fuel
       | S fuel' =>
           resp' ← client_scroll scroll_id "5m";
           scroll_loop fuel' scroll_id resp' (results ++ (record_of_hit <$> hits resp'))
       end.

(** The lower bound of the range query, [now - timedelta(days=days)], is
    represented by the window [days] itself; the date arithmetic, which
    raises [OverflowError] for a window that leads outside the years 1 to
    9999, is not part of the embedding. *)
Definition get_signals (this : self) (fuel : nat) (space : string) (days : Z)
  : M (list pydict) :=
  let index_pattern := ".internal.alerts-security.alerts-" +:+ space +:+ "-*" in
  resp ← client_search index_pattern days "5m" 1000;
  let scroll_id := _scroll_id resp in
  let results := record_of_hit <$> hits resp in
  results ← scroll_loop fuel scroll_id resp results;
  _ ← client_clear_scroll scroll_id;
  mret results.

End get_signals.

End ElasticsearchConnector.

(** ** connectors/kibana.py *)

Module KibanaConnector.

(** [host.rstrip('/')]. *)
Fixpoint rstrip_slash (s : string) : string :=
  match s with
  | EmptyString => EmptyString
  | String c s' =>
      match rstrip_slash s' with
      | EmptyString => if Ascii.eqb c "/"%char then EmptyString else String c EmptyString
      | t => String c t
      end
  end.

Record self := {
  base_url : string;
  space : string;
  verify_ssl : bool;
  headers : list (string * string);
  auth : option (string * string);
  api_endpoint : string }.

Definition __init__ (host space : string) (api_key username password : option string)
    (verify_ssl : bool) : M self :=
  let base_url := rstrip_slash host in
  let headers := [("kbn-xsrf", "true")] in
  '(headers, auth) ←
    (if truthy api_key
     then mret (headers ++ [("Authorization", "ApiKey " +:+ default "" api_key)], None)
     else if truthy username && truthy password
          then mret (headers, Some (default "" username, default "" password))
          else raise (ValueError "Either API key or username/password must be provided"));
  let api_endpoint :=
    if negb (String.eqb space "default")
    then base_url +:+ "/s/" +:+ space +:+ "/api"
    else base_url +:+ "/api" in
  mret {| base_url := base_url; space := space; verify_ssl := verify_ssl;
          headers := headers; auth := auth; api_endpoint := api_endpoint |}.

Section methods.
Context (env : Env).

(** [requests.get(...)], [raise_for_status()] and [response.json()['data']]. *)
Definition find_rules (url : string) (page per_page : nat) : M (list pyval) :=
  call (λ h, kbn_find_rules env h url page per_page) (KbnFindRules url page per_page).

(** The [while True] loop; [fuel] bounds the number of pages requested. *)
Fixpoint rules_loop (fuel : nat) (url : string) (page per_page : nat)
    (all_rules : list pyval) : M (list pyval) :=
  match fuel with
  | 0 => out_of_fuel
  | S fuel' =>
      rules ← find_rules url page per_page;
      let all_rules := all_rules ++ rules in
      if length rules <? per_page then mret all_rules
      else rules_loop fuel' url (page + 1) per_page all_rules
  end.

Definition get_all_detection_rules (this : self) (fuel : nat) : M (list pyval) :=
  let url := api_endpoint this +:+ "/detection_engine/rules/_find" in
  rules_loop fuel url 1 100 [].

(** [requests.patch(...)], [raise_for_status()] and [response.json()]. *)
Definition add_note (this : self) (event_id : pyval) (note_text timeline_id : string)
  : M pyval :=
  let url := api_endpoint this +:+ "/note" in
  call (λ h, kbn_add_note env h url timeline_id event_id note_text)
       (KbnAddNote url timeline_id event_id note_text).

End methods.

End KibanaConnector.

(** ** Dictionary access *)

(** [v.get(key, dflt)]: only a dict has the method. *)
Definition py_get (v : pyval) (key : string) (dflt : pyval) : M pyval :=
  match v with
  | PDict d => mret (default dflt (d !! key))
  | _ => raise (AttributeError (type_name v) "get")
  end.

(** [d[key]] on a dict. *)
Definition py_getitem (d : pydict) (key : string) : M pyval :=
  match d !! key with
  | Some v => mret v
  | None => raise (KeyError key)
  end.

(** ** connectors/ai.py *)

Module AISecurityAnalyst.

Record self := {
  api_key : string;
  model : string;
  temperature : Q;
  log_file : string }.

(** [model] and [temperature] are keyword arguments with defaults
    ["gpt-4o"] and [0.3]; [None] stands for an omitted argument. *)
Definition __init__ (openai_api_key : string) (model : option string)
    (temperature : option Q) : self :=
  {| api_key := openai_api_key;
     model := default "gpt-4o" model;
     temperature := default (3 # 10)%Q temperature;
     log_file := "logs.txt" |}.

(** The values the prompt is rendered from, in the order the f-string
    evaluates them. *)
Record AnalysisRequest := {
  rule_name : pyval;
  severity : pyval;
  risk_score : pyval;
  description : pyval;
  timestamp : pyval;
  process_name : pyval;
  command_line : pyval;
  working_directory : pyval;
  parent_name : pyval;
  parent_command_line : pyval;
  user_name : pyval;
  user_domain : pyval;
  hostname : pyval;
  os_name : pyval;
  threat : pyval }.

Record AnalysisResult := {
  signal_id : pyval;
  analysis : pyval;
  model_used : string;
  result_timestamp : pyval }.

Definition NA : pyval := PStr "N/A".
Definition empty_dict : pyval := PDict ∅.

Definition system_message : message :=
  {| role := "system";
     content := "You are an expert security analyst. Analyze the security alert and provide concise, actionable insights." |}.

Section methods.
Context (env : Env) `{Builtins}.

Definition render (r : AnalysisRequest) : string :=
  "Analyze the following security alert and provide a triage assessment:

        Alert Details:
        - Rule Name: " +:+ py_str (rule_name r) +:+
  "
        - Severity: " +:+ py_str (severity r) +:+
  "
        - Risk Score: " +:+ py_str (risk_score r) +:+
  "
        - Description: " +:+ py_str (description r) +:+
  "
        - Timestamp: " +:+ py_str (timestamp r) +:+
  "

        Process Information:
        - Name: " +:+ py_str (process_name r) +:+
  "
        - Command Line: " +:+ py_str (command_line r) +:+
  "
        - Working Directory: " +:+ py_str (working_directory r) +:+
  "
        - Parent Process: " +:+ py_str (parent_name r) +:+
  "
        - Parent Command Line: " +:+ py_str (parent_command_line r) +:+
  "

        User Context:
        - Username: " +:+ py_str (user_name r) +:+
  "
        - Domain: " +:+ py_str (user_domain r) +:+
  "

        Host Information:
        - Hostname: " +:+ py_str (hostname r) +:+
  "
        - OS: " +:+ py_str (os_name r) +:+
  "

        MITRE ATT&CK:
        " +:+ yaml_dump (threat r) +:+
  "

        Please provide:
        1. Severity Assessment (Critical/High/Medium/Low) with short explanation
        2. Short description of the rule and its purpose
        3. Short summary of host and user context in a table
        4. Detailed analysis of the alert with highlighting key fields and explaining what that key data mean (like explaining process with arguments, files and registry)
        5. Recommended immediate actions

        Use markdown formatting for the response.
        ".

(** The lookups of [_create_signal_prompt], in the order the function
    performs them: the five assignments, then the fields of the f-string. *)
Definition extract (signal : pydict) : M AnalysisRequest :=
  let source := default empty_dict (signal !! "source") in
  process ← py_get source "process" empty_dict;
  parent_process ← py_get process "parent" empty_dict;
  kibana ← py_get source "kibana" empty_dict;
  kibana_alert ← py_get kibana "alert" empty_dict;
  rule ← py_get kibana_alert "rule" empty_dict;
  rule_params ← py_get rule "parameters" empty_dict;
  host ← py_get source "host" empty_dict;
  user ← py_get source "user" empty_dict;
  rule ← py_get kibana_alert "rule" empty_dict;
  rule_name ← py_get rule "name" NA;
  severity ← py_get rule_params "severity" NA;
  risk_score ← py_get rule_params "risk_score" NA;
  description ← py_get rule_params "description" NA;
  timestamp ← py_get source "@timestamp" NA;
  process_name ← py_get process "name" NA;
  command_line ← py_get process "command_line" NA;
  working_directory ← py_get process "working_directory" NA;
  parent_name ← py_get parent_process "name" NA;
  parent_command_line ← py_get parent_process "command_line" NA;
  user_name ← py_get user "name" NA;
  user_domain ← py_get user "domain" NA;
  hostname ← py_get host "hostname" NA;
  os ← py_get host "os" empty_dict;
  os_name ← py_get os "name" NA;
  threat ← py_get rule_params "threat" (PList []);
  mret {| rule_name := rule_name; severity := severity; risk_score := risk_score;
          description := description; timestamp := timestamp;
          process_name := process_name; command_line := command_line;
          working_directory := working_directory; parent_name := parent_name;
          parent_command_line := parent_command_line; user_name := user_name;
          user_domain := user_domain; hostname := hostname; os_name := os_name;
          threat := threat |}.

Definition _create_signal_prompt (this : self) (signal : pydict) : M string :=
  request ← extract signal;
  mret (render request).

(** One NDJSON line appended to [self.log_file]; the clock, the serialisation
    and the write belong to the environment. *)
Definition _log_debug (this : self) (message : string) (data : pyval) : M unit :=
  call (λ h, log_append env h (log_file this) message data)
       (LogAppend (log_file this) message data).

Definition chat_completions_create (model : string) (messages : list message)
    (temperature : Q) : M ChatResponse :=
  call (λ h, chat_create env h model messages temperature)
       (ChatCreate model messages temperature).

(** [response.choices[0].message.content]. *)
Definition first_choice_content (response : ChatResponse) : M pyval :=
  match choices response with
  | c :: _ => mret c
  | [] => raise (IndexError "list index out of range")
  end.

Definition analyze_signal (this : self) (signal : pydict) : M AnalysisResult :=
  prompt ← _create_signal_prompt this signal;
  _ ← _log_debug this "Input Signal:" (PDict signal);
  _ ← _log_debug this "Generated Prompt:" (PStr prompt);
  response ← chat_completions_create (model this)
    [system_message; {| role := "user"; content := prompt |}] (temperature this);
  _ ← _log_debug this "AI Response:" (model_dump response);
  signal_id ← py_getitem signal "id";
  analysis ← first_choice_content response;
  source ← py_getitem signal "source";
  timestamp ← py_get source "@timestamp" PNone;
  mret {| signal_id := signal_id; analysis := analysis; model_used := model this;
          result_timestamp := timestamp |}.

End methods.

End AISecurityAnalyst.

(** ** main.py *)

(** The analyst object of the script: no temperature is passed. *)
Definition ai_analyst (openai_api_key : string) : AISecurityAnalyst.self :=
  AISecurityAnalyst.__init__ openai_api_key (Some "gpt-4o") None.

Section main.
Context (env : Env) `{Builtins}.
Context (kibana : KibanaConnector.self) (elastic : ElasticsearchConnector.self)
        (analyst : AISecurityAnalyst.self).

Definition note_text (a : AISecurityAnalyst.AnalysisResult) (signal_id : pyval) : string :=
  "
            AI Security Analysis            

            " +:+ py_str (AISecurityAnalyst.analysis a) +:+
  "

            Signal ID: " +:+ py_str signal_id +:+
  "
            Analysis Timestamp: " +:+ py_str (AISecurityAnalyst.result_timestamp a) +:+
  "
            Model Used: " +:+ AISecurityAnalyst.model_used a +:+
  "
            ".

Definition success_line (id : pyval) : string :=
  "✓ Processed signal " +:+ py_str id.

Definition failure_line (id : pyval) (e : exn) : string :=
  "✗ Error processing signal " +:+ py_str id +:+ ": " +:+ exn_str e.

(** The body of the [try] block. *)
Definition enrich (signal : pydict) : M unit :=
  analysis ← AISecurityAnalyst.analyze_signal env analyst signal;
  id ← py_getitem signal "id";
  let note := note_text analysis id in
  event_id ← py_getitem signal "id";
  _ ← KibanaConnector.add_note env kibana event_id note "";
  id ← py_getitem signal "id";
  print (success_line id).

(** The [except Exception as e] handler. *)
Definition report_failure (signal : pydict) (e : exn) : M unit :=
  id ← py_getitem signal "id";
  print (failure_line id e).

Definition process_signal (signal : pydict) : M unit :=
  try_except (enrich signal) (report_failure signal).

(** [for signal in signals]. *)
Fixpoint for_each (signals : list pydict) : M unit :=
  match signals with
  | [] => mret ()
  | signal :: rest => _ ← process_signal signal; for_each rest
  end.

Definition main (fuel : nat) : M unit :=
  rules ← KibanaConnector.get_all_detection_rules env kibana fuel;
  _ ← print ("Found " +:+ pretty (length rules) +:+ " rules");
  signals ← ElasticsearchConnector.get_signals env elastic fuel "soc" 30;
  _ ← print ("Found " +:+ pretty (length signals) +:+ " signals");
  for_each signals.

End main.

(** ** Reference environments *)

(** Number of scroll calls recorded since the most recent search. *)
Fixpoint scrolls_since_search_from (acc : nat) (h : list event) : nat :=
  match h with
  | [] => acc
  | EsSearch _ _ _ _ _ :: h' => scrolls_since_search_from 0 h'
  | EsScroll _ _ _ :: h' => scrolls_since_search_from (S acc) h'
  | _ :: h' => scrolls_since_search_from acc h'
  end.

Definition scrolls_since_search : list event → nat := scrolls_since_search_from 0.

(** Page [k] (from 0) of a store that serves [docs] in pages of [P]. *)
Definition page (docs : list Hit) (P k : nat) : list Hit := take P (drop (k * P) docs).

(** An environment whose document store holds [docs] and serves them in pages
    of [P]: the search returns page 0 and opens the scroll context [sid], the
    n-th scroll after it returns page n. *)
Record paged_store (env : Env) (docs : list Hit) (P : nat) (sid : string) : Prop := {
  paged_search : ∀ h index days scroll size,
    es_search env h index days scroll size = inr {| _scroll_id := sid; hits := page docs P 0 |};
  paged_scroll : ∀ h scroll,
    es_scroll env h sid scroll =
      inr {| _scroll_id := sid; hits := page docs P (S (scrolls_since_search h)) |};
  paged_clear : ∀ h, es_clear_scroll env h sid = inr () }.

Fixpoint count_events (p : event → bool) (h : list event) : nat :=
  match h with
  | [] => 0
  | ev :: h' => (if p ev then 1 else 0) + count_events p h'
  end.

Definition is_clear_scroll (ev : event) : bool :=
  match ev with EsClearScroll _ _ => true | _ => false end.
Definition is_chat (ev : event) : bool :=
  match ev with ChatCreate _ _ _ _ => true | _ => false end.

(** A quiet set of collaborators: a paged store, one page of [rules], an
    analysis service that answers [narrative], and writes that succeed. *)
Definition fake_env (docs : list Hit) (P : nat) (rules : list pyval) (narrative : string)
  : Env :=
  {| es_search := λ _ _ _ _ _, inr {| _scroll_id := "scroll-1"; hits := page docs P 0 |};
     es_scroll := λ h sid _,
       inr {| _scroll_id := sid; hits := page docs P (S (scrolls_since_search h)) |};
     es_clear_scroll := λ _ _, inr ();
     kbn_find_rules := λ _ _ page _, inr (if page =? 1 then rules else []);
     kbn_add_note := λ _ _ _ _ _, inr (PDict ∅);
     chat_create := λ _ _ _ _,
       inr {| choices := [PStr narrative]; model_dump := PDict ∅ |};
     log_append := λ _ _ _ _, inr () |}.

(** The same collaborators, with the scroll call number [k] (from 0) after a
    search raising [e]. *)
Definition with_scroll_fault (k : nat) (e : exn) (env : Env) : Env :=
  {| es_search := es_search env;
     es_scroll := λ h sid scroll,
       if scrolls_since_search h =? k then inl e else es_scroll env h sid scroll;
     es_clear_scroll := es_clear_scroll env;
     kbn_find_rules := kbn_find_rules env;
     kbn_add_note := kbn_add_note env;
     chat_create := chat_create env;
     log_append := log_append env |}.

(** The same collaborators, with the analysis call number [k] (from 0) of the
    run raising [e]. *)
Definition with_chat_fault (k : nat) (e : exn) (env : Env) : Env :=
  {| es_search := es_search env;
     es_scroll := es_scroll env;
     es_clear_scroll := es_clear_scroll env;
     kbn_find_rules := kbn_find_rules env;
     kbn_add_note := kbn_add_note env;
     chat_create := λ h model messages temperature,
       if count_events is_chat h =? k then inl e
       else chat_create env h model messages temperature;
     log_append := log_append env |}.

(** Builtins for evaluating examples: [str] as CPython gives it on strings,
    integers, [None] and booleans, and [yaml.dump] as PyYAML gives it on the
    empty list. Containers get a placeholder; no example formats one. *)
#[export] Instance sample_builtins : Builtins := {|
  py_str v :=
    match v with
    | PNone => "None"
    | PBool true => "True"
    | PBool false => "False"
    | PInt z => pretty z
    | PStr s => s
    | PList _ => "[...]"
    | PDict _ => "{...}"
    end;
  yaml_dump v :=
    match v with
    | PList [] => "[]
"
    | _ => "..."
    end;
  py_str_PStr := λ s, eq_refl |}.

Definition new_world : World := {| history := []; stdout := [] |}.

(** A client library that accepts the hosts it is given. *)
Definition accepting_client : ElasticsearchConnector.client_constructor :=
  λ _ _ _, inr ().

(** A client library that rejects every host. *)
Definition rejecting_client : ElasticsearchConnector.client_constructor :=
  λ _ _ _,
    inl (ValueError "URL must include a 'scheme', 'host', and 'port' component").

Definition sample_kibana : KibanaConnector.self :=
  {| KibanaConnector.base_url := "https://kibana.example.com";
     KibanaConnector.space := "soc";
     KibanaConnector.verify_ssl := false;
     KibanaConnector.headers := [("kbn-xsrf", "true")];
     KibanaConnector.auth := Some ("elastic", "changeme");
     KibanaConnector.api_endpoint := "https://kibana.example.com/s/soc/api" |}.

Definition sample_elastic : ElasticsearchConnector.self :=
  {| ElasticsearchConnector.hosts := ["https://elasticsearch.example.com"];
     ElasticsearchConnector.verify_certs := false;
     ElasticsearchConnector.client_auth :=
       ElasticsearchConnector.basic_auth "elastic" "changeme" |}.

Definition hit (id : string) : Hit := {| _id := id; _source := PDict ∅ |}.

(** * Specification vocabulary *)

(** ** Pagination *)

Definition ceil_div (a b : nat) : nat := (a + b - 1) / b.

(** The scroll calls number [k+1] to [k+n] of a retrieval, as recorded. *)
Definition scroll_events (docs : list Hit) (P : nat) (sid : string) (k n : nat)
  : list event :=
  (λ i, EsScroll sid "5m" (inr {| _scroll_id := sid; hits := page docs P i |}))
  <$> seq (S k) n.

(** The calls of one complete retrieval: the search, the scroll calls, the
    release of the scroll context. *)
Definition retrieval_events (docs : list Hit) (P : nat) (sid : string)
    (space : string) (days : Z) : list event :=
  EsSearch (".internal.alerts-security.alerts-" +:+ space +:+ "-*") days "5m" 1000
    (inr {| _scroll_id := sid; hits := page docs P 0 |})
  :: scroll_events docs P sid 0 (ceil_div (length docs) P)
     ++ [EsClearScroll sid (inr ())].


(** ** Connector construction *)

Definition credentials_error : exn :=
  ValueError "Either API key or username/password must be provided".

(** ** Prompt construction *)

(** A computation that touches nothing: its outcome is the same in every
    world, the world is left as it was, and the outcome is a value or an
    [AttributeError] of a [.get] on something that is not a dict. *)
Definition lookup_outcome {A} (r : res A) : Prop :=
  match r with
  | Ok _ => True
  | Raise e => ∃ tyname, e = AttributeError tyname "get"
  | OutOfFuel => False
  end.

Definition pure_lookup {A} (m : M A) : Prop :=
  ∃ r, lookup_outcome r ∧ ∀ w, m w = (r, w).

(** The value under a path of keys, if every step is a dict holding the key. *)
Fixpoint dig (v : pyval) (path : list string) : option pyval :=
  match path with
  | [] => Some v
  | key :: path' =>
      match v with
      | PDict d => d !! key ≫= λ v', dig v' path'
      | _ => None
      end
  end.

Definition is_dict (v : pyval) : bool :=
  match v with PDict _ => true | _ => false end.

(** The mapping under ["source"], as [signal.get('source', {})] gives it. *)
Definition source_of (signal : pydict) : pyval :=
  default AISecurityAnalyst.empty_dict (signal !! "source").

(** The places where the prompt builder calls [.get] on what it found. *)
Definition container_paths : list (list string) :=
  [ []; ["process"]; ["process"; "parent"]; ["kibana"]; ["kibana"; "alert"];
    ["kibana"; "alert"; "rule"]; ["kibana"; "alert"; "rule"; "parameters"];
    ["host"]; ["host"; "os"]; ["user"] ].

(** Every container that is present is a mapping. *)
Definition well_shaped (signal : pydict) : bool :=
  forallb (λ path, from_option is_dict true (dig (source_of signal) path)) container_paths.

(** The value at a path of the source mapping, or the default if absent. *)
Definition field (signal : pydict) (path : list string) (dflt : pyval) : pyval :=
  default dflt (dig (source_of signal) path).

Definition expected_request (signal : pydict) : AISecurityAnalyst.AnalysisRequest :=
  let NA := AISecurityAnalyst.NA in
  {| AISecurityAnalyst.rule_name := field signal ["kibana"; "alert"; "rule"; "name"] NA;
     AISecurityAnalyst.severity :=
       field signal ["kibana"; "alert"; "rule"; "parameters"; "severity"] NA;
     AISecurityAnalyst.risk_score :=
       field signal ["kibana"; "alert"; "rule"; "parameters"; "risk_score"] NA;
     AISecurityAnalyst.description :=
       field signal ["kibana"; "alert"; "rule"; "parameters"; "description"] NA;
     AISecurityAnalyst.timestamp := field signal ["@timestamp"] NA;
     AISecurityAnalyst.process_name := field signal ["process"; "name"] NA;
     AISecurityAnalyst.command_line := field signal ["process"; "command_line"] NA;
     AISecurityAnalyst.working_directory :=
       field signal ["process"; "working_directory"] NA;
     AISecurityAnalyst.parent_name := field signal ["process"; "parent"; "name"] NA;
     AISecurityAnalyst.parent_command_line :=
       field signal ["process"; "parent"; "command_line"] NA;
     AISecurityAnalyst.user_name := field signal ["user"; "name"] NA;
     AISecurityAnalyst.user_domain := field signal ["user"; "domain"] NA;
     AISecurityAnalyst.hostname := field signal ["host"; "hostname"] NA;
     AISecurityAnalyst.os_name := field signal ["host"; "os"; "name"] NA;
     AISecurityAnalyst.threat :=
       field signal ["kibana"; "alert"; "rule"; "parameters"; "threat"] (PList []) |}.

(** The request of a record with nothing in it. *)
Definition request_not_available : AISecurityAnalyst.AnalysisRequest :=
  let NA := AISecurityAnalyst.NA in
  {| AISecurityAnalyst.rule_name := NA; AISecurityAnalyst.severity := NA;
     AISecurityAnalyst.risk_score := NA; AISecurityAnalyst.description := NA;
     AISecurityAnalyst.timestamp := NA; AISecurityAnalyst.process_name := NA;
     AISecurityAnalyst.command_line := NA; AISecurityAnalyst.working_directory := NA;
     AISecurityAnalyst.parent_name := NA; AISecurityAnalyst.parent_command_line := NA;
     AISecurityAnalyst.user_name := NA; AISecurityAnalyst.user_domain := NA;
     AISecurityAnalyst.hostname := NA; AISecurityAnalyst.os_name := NA;
     AISecurityAnalyst.threat := PList [] |}.

(** ** The analysis call and the run *)

(** What a chat-completion call of [analyze_signal] must look like: the
    analyst's model and temperature, and the two messages. *)
Definition chat_contract `{Builtins} (this : AISecurityAnalyst.self) (signal : pydict)
    (ev : event) : Prop :=
  match ev with
  | ChatCreate model messages temperature _ =>
      model = AISecurityAnalyst.model this
      ∧ temperature = AISecurityAnalyst.temperature this
      ∧ ∃ request,
          (∀ w, AISecurityAnalyst.extract signal w = (Ok request, w))
          ∧ messages = [AISecurityAnalyst.system_message;
                        {| role := "user";
                           content := AISecurityAnalyst.render request |}]
  | _ => True
  end.

(** The identifiers the notes written in a stretch of history are keyed by. *)
Fixpoint note_ids (h : list event) : list pyval :=
  match h with
  | [] => []
  | KbnAddNote _ _ event_id _ _ :: h' => event_id :: note_ids h'
  | _ :: h' => note_ids h'
  end.

Definition is_note_written (ev : event) : bool :=
  match ev with KbnAddNote _ _ _ _ (inr _) => true | _ => false end.

Definition has_id (signal : pydict) : Prop := is_Some (signal !! "id").

(** Every record [get_signals] returns was built from a hit, so it carries
    the keys ["id"] and ["source"]. *)
Definition fetched (signal : pydict) : Prop :=
  ∃ hit, signal = ElasticsearchConnector.record_of_hit hit.

(** The line printed for a record: its id, and the error if there was one. *)
Definition report_line `{Builtins} (entry : pyval * option exn) : string :=
  match entry.2 with
  | None => success_line entry.1
  | Some e => failure_line entry.1 e
  end.


Definition printed (line : string) (w : World) : World :=
  {| history := history w; stdout := stdout w ++ [line] |}.

Section run_relation.
Context (env : Env) `{Builtins}.
Context (kibana : KibanaConnector.self) (analyst : AISecurityAnalyst.self).

(** A run over a sequence of records, as the isolate-and-continue policy
    describes it: each record is enriched in turn; when enrichment returns,
    the run goes on from there; when it raises, whatever the stage, the
    failure is reported under the record's id and the run goes on with the
    next record. The log has one entry per record, in order. *)
Inductive run : list pydict → World → list (pyval * option exn) → World → Prop :=
| run_done w : run [] w [] w
| run_enriched signal id rest w w1 log w' :
    signal !! "id" = Some id →
    enrich env kibana analyst signal w = (Ok (), w1) →
    run rest w1 log w' →
    run (signal :: rest) w ((id, None) :: log) w'
| run_failed signal id e rest w w1 log w' :
    signal !! "id" = Some id →
    enrich env kibana analyst signal w = (Raise e, w1) →
    run rest (printed (failure_line id e) w1) log w' →
    run (signal :: rest) w ((id, Some e) :: log) w'.

(** What a note written while processing [signal] must look like: keyed by
    the id of [signal], and carrying an analysis result of [signal] whose
    [signal_id] is that id. *)
Definition note_contract (signal : pydict) (ev : event) : Prop :=
  match ev with
  | KbnAddNote _ _ event_id note _ =>
      signal !! "id" = Some event_id
      ∧ ∃ a w0 w1,
          AISecurityAnalyst.analyze_signal env analyst signal w0 = (Ok a, w1)
          ∧ AISecurityAnalyst.signal_id a = event_id
          ∧ note = note_text a event_id
  | _ => True
  end.

End run_relation.

(** ** Sample run *)

Definition sample_docs : list Hit := [hit "a"; hit "b"; hit "c"].

Definition sample_signals : list pydict :=
  ElasticsearchConnector.record_of_hit <$> sample_docs.

(** Seven rules, three alerts in pages of two, and an analysis service that
    fails on its second call. *)
Definition sample_env : Env :=
  with_chat_fault 1 (ExternalError "rate limited")
    (fake_env sample_docs 2 (replicate 7 (PDict ∅)) "low risk").


(** * The operations outside the pipeline *)

(** [get_signal_by_id], [get_rule] and [patch_rule] are not called by
    [main]. Their requests are answered by oracles of their own, from the
    history of the pipeline's calls so far, and leave no event in it. *)

(** The part of a search response [get_signal_by_id] reads:
    [response['hits']['total']['value']] and [response['hits']['hits']]. *)
Record LookupResponse := { total_value : Z; lookup_hits : list Hit }.

Record PointEnv := {
  es_lookup : list event → string → string → exn + LookupResponse;
  kbn_get_rule : list event → string → string → exn + pyval;
  kbn_patch_rule : list event → string → pydict → exn + pyval }.

(** An external call that is not recorded: return or raise. *)
Definition query {A} (answer : list event → exn + A) : M A := λ w,
  match answer (history w) with
  | inl e => (Raise e, w)
  | inr a => (Ok a, w)
  end.

Module PointOperations.

Section methods.
Context (penv : PointEnv).

Definition get_signal_by_id (this : ElasticsearchConnector.self) (signal_id space : string)
  : M pydict :=
  let index_pattern := ".internal.alerts-security.alerts-" +:+ space +:+ "-*" in
  response ← query (λ h, es_lookup penv h index_pattern signal_id);
  if (total_value response =? 0)%Z
  then raise (ValueError ("Signal with ID " +:+ signal_id +:+ " not found"))
  else match lookup_hits response with
       | hit :: _ => mret (ElasticsearchConnector.record_of_hit hit)
       | [] => raise (IndexError "list index out of range")
       end.

(** [requests.get(...)], [raise_for_status()] and [response.json()]. *)
Definition get_rule (this : KibanaConnector.self) (rule_id : string) : M pyval :=
  let url := KibanaConnector.api_endpoint this +:+ "/detection_engine/rules" in
  query (λ h, kbn_get_rule penv h url rule_id).

(** [{"rule_id": rule_id, **updates}]: a key of [updates] replaces the entry
    written before it. *)
Definition patch_payload (rule_id : string) (updates : pydict) : pydict :=
  updates ∪ {[ "rule_id" := PStr rule_id ]}.

(** [requests.patch(...)], [raise_for_status()] and [response.json()]. *)
Definition patch_rule (this : KibanaConnector.self) (rule_id : string) (updates : pydict)
  : M pyval :=
  let url := KibanaConnector.api_endpoint this +:+ "/detection_engine/rules" in
  let payload := patch_payload rule_id updates in
  query (λ h, kbn_patch_rule penv h url payload).

End methods.

End PointOperations.

(** * Further vocabulary *)

(** ** Rule listing *)

(** Page [page] (from 1) of a rule store that serves [rules] in pages of
    [per_page]. *)
Definition rules_page (rules : list pyval) (per_page page : nat) : list pyval :=
  take per_page (drop ((page - 1) * per_page) rules).

(** An environment whose rule-management API holds [rules] and serves the
    page asked for. *)
Definition paged_rules (env : Env) (rules : list pyval) : Prop :=
  ∀ h url page per_page,
    kbn_find_rules env h url page per_page = inr (rules_page rules per_page page).

(** An environment whose rule-management API never returns a short page. *)
Definition endless_rules (env : Env) : Prop :=
  ∀ h url page per_page,
    ∃ rules, kbn_find_rules env h url page per_page = inr rules
             ∧ per_page ≤ length rules.

(** The successful listing requests for [pages], numbered from [page]. *)
Fixpoint find_rules_events (url : string) (per_page page : nat)
    (pages : list (list pyval)) : list event :=
  match pages with
  | [] => []
  | rules :: pages' =>
      KbnFindRules url page per_page (inr rules)
      :: find_rules_events url per_page (page + 1) pages'
  end.

Definition with_paged_rules (rules : list pyval) (env : Env) : Env :=
  {| es_search := es_search env;
     es_scroll := es_scroll env;
     es_clear_scroll := es_clear_scroll env;
     kbn_find_rules := λ _ _ page per_page, inr (rules_page rules per_page page);
     kbn_add_note := kbn_add_note env;
     chat_create := chat_create env;
     log_append := log_append env |}.

(** The same collaborators, with the listing request for page [k] raising
    [e]. *)
Definition with_rules_fault (k : nat) (e : exn) (env : Env) : Env :=
  {| es_search := es_search env;
     es_scroll := es_scroll env;
     es_clear_scroll := es_clear_scroll env;
     kbn_find_rules := λ h url page per_page,
       if page =? k then inl e else kbn_find_rules env h url page per_page;
     kbn_add_note := kbn_add_note env;
     chat_create := chat_create env;
     log_append := log_append env |}.

Definition with_endless_rules (env : Env) : Env :=
  {| es_search := es_search env;
     es_scroll := es_scroll env;
     es_clear_scroll := es_clear_scroll env;
     kbn_find_rules := λ _ _ _ per_page, inr (replicate per_page PNone);
     kbn_add_note := kbn_add_note env;
     chat_create := chat_create env;
     log_append := log_append env |}.

(** ** Retrieval against any server *)

(** The hits of the successful search and scroll calls, in order. *)
Fixpoint hits_received (h : list event) : list Hit :=
  match h with
  | [] => []
  | EsSearch _ _ _ _ (inr resp) :: h' => hits resp ++ hits_received h'
  | EsScroll _ _ (inr resp) :: h' => hits resp ++ hits_received h'
  | _ :: h' => hits_received h'
  end.

(** A scroll with keep-alive "5m" or a release, on the scroll context [sid]. *)
Definition on_scroll_context (sid : string) (ev : event) : Prop :=
  match ev with
  | EsScroll scroll_id scroll _ => scroll_id = sid ∧ scroll = "5m"
  | EsClearScroll scroll_id _ => scroll_id = sid
  | _ => False
  end.

(** The calls of one retrieval: a search on the alert index of the space,
    and, if it succeeded, calls on the scroll context it opened. *)
Definition retrieval_shape (space : string) (days : Z) (evs : list event) : Prop :=
  match evs with
  | EsSearch index days' scroll size r :: rest =>
      index = ".internal.alerts-security.alerts-" +:+ space +:+ "-*"
      ∧ days' = days ∧ scroll = "5m" ∧ size = 1000
      ∧ match r with
        | inr resp => Forall (on_scroll_context (_scroll_id resp)) rest
        | inl _ => rest = []
        end
  | _ => False
  end.

(** A store whose scroll responses carry a fresh scroll id each time. *)
Definition with_rotating_scroll_id (env : Env) : Env :=
  {| es_search := es_search env;
     es_scroll := λ h sid scroll,
       match es_scroll env h sid scroll with
       | inr resp =>
           inr {| _scroll_id := sid +:+ "'"; hits := hits resp |}
       | inl e => inl e
       end;
     es_clear_scroll := es_clear_scroll env;
     kbn_find_rules := kbn_find_rules env;
     kbn_add_note := kbn_add_note env;
     chat_create := chat_create env;
     log_append := log_append env |}.

(** ** Connector URLs *)

(** [n] slashes. *)
Fixpoint slashes (n : nat) : string :=
  match n with
  | 0 => ""
  | S n' => String "/" (slashes n')
  end.

Fixpoint ends_with_slash (s : string) : bool :=
  match s with
  | EmptyString => false
  | String c EmptyString => Ascii.eqb c "/"
  | String _ s' => ends_with_slash s'
  end.

(** The endpoint of a space of the Kibana at [host]. *)
Definition space_endpoint (host space : string) : string :=
  if String.eqb space "default"
  then KibanaConnector.rstrip_slash host +:+ "/api"
  else KibanaConnector.rstrip_slash host +:+ "/s/" +:+ space +:+ "/api".

Definition event_url (ev : event) : option string :=
  match ev with
  | KbnFindRules url _ _ _ => Some url
  | KbnAddNote url _ _ _ _ => Some url
  | _ => None
  end.

(** ** Collaborators that do not fail *)

Definition log_never_fails (env : Env) : Prop :=
  ∀ h file message data, log_append env h file message data = inr ().

Definition chat_always_answers (env : Env) : Prop :=
  ∀ h model messages temperature,
    ∃ response c cs, chat_create env h model messages temperature = inr response
                     ∧ choices response = c :: cs.

Definition notes_always_written (env : Env) : Prop :=
  ∀ h url timeline_id event_id note,
    ∃ v, kbn_add_note env h url timeline_id event_id note = inr v.

(** ** Point lookup *)

(** A store that answers the lookup of an id with the documents of [docs]
    carrying it. *)
Definition id_store (penv : PointEnv) (docs : list Hit) : Prop :=
  ∀ h index signal_id,
    es_lookup penv h index signal_id
    = inr {| total_value := Z.of_nat (length (filter (λ d, _id d = signal_id) docs));
             lookup_hits := filter (λ d, _id d = signal_id) docs |}.

Definition fake_point_env (docs : list Hit) : PointEnv :=
  {| es_lookup := λ _ _ signal_id,
       inr {| total_value := Z.of_nat (length (filter (λ d, _id d = signal_id) docs));
              lookup_hits := filter (λ d, _id d = signal_id) docs |};
     kbn_get_rule := λ _ _ rule_id, inr (PDict {[ "rule_id" := PStr rule_id ]});
     kbn_patch_rule := λ _ _ payload, inr (PDict payload) |}.

(** ** The calls of one analysis *)

Definition is_find_rules (ev : event) : bool :=
  match ev with KbnFindRules _ _ _ _ => true | _ => false end.

Section analysis_calls.
Context `{Builtins} (this : AISecurityAnalyst.self) (signal : pydict).

(** The two messages sent for a well-shaped record. *)
Definition chat_messages : list message :=
  [AISecurityAnalyst.system_message;
   {| role := "user"; content := AISecurityAnalyst.render (expected_request signal) |}].

(** The two log entries written before the analysis call. *)
Definition prompt_log_events : list event :=
  [LogAppend (AISecurityAnalyst.log_file this) "Input Signal:" (PDict signal) (inr ());
   LogAppend (AISecurityAnalyst.log_file this) "Generated Prompt:"
     (PStr (AISecurityAnalyst.render (expected_request signal))) (inr ())].

(** The analysis call answered by [response], and the log entry after it. *)
Definition response_events (response : ChatResponse) : list event :=
  [ChatCreate (AISecurityAnalyst.model this) chat_messages
     (AISecurityAnalyst.temperature this) (inr response);
   LogAppend (AISecurityAnalyst.log_file this) "AI Response:" (model_dump response)
     (inr ())].

End analysis_calls.

(** A log file that cannot be written, whatever else the collaborators do. *)
Definition with_log_fault (e : exn) (env : Env) : Env :=
  {| es_search := es_search env;
     es_scroll := es_scroll env;
     es_clear_scroll := es_clear_scroll env;
     kbn_find_rules := kbn_find_rules env;
     kbn_add_note := kbn_add_note env;
     chat_create := chat_create env;
     log_append := λ _ _ _ _, inl e |}.

(** An analysis service that answers without any choice. *)
Definition with_no_choices (env : Env) : Env :=
  {| es_search := es_search env;
     es_scroll := es_scroll env;
     es_clear_scroll := es_clear_scroll env;
     kbn_find_rules := kbn_find_rules env;
     kbn_add_note := kbn_add_note env;
     chat_create := λ _ _ _ _, inr {| choices := []; model_dump := PDict ∅ |};
     log_append := log_append env |}.

(** The same collaborators, with the search raising [e]. *)
Definition with_search_fault (e : exn) (env : Env) : Env :=
  {| es_search := λ _ _ _ _ _, inl e;
     es_scroll := es_scroll env;
     es_clear_scroll := es_clear_scroll env;
     kbn_find_rules := kbn_find_rules env;
     kbn_add_note := kbn_add_note env;
     chat_create := chat_create env;
     log_append := log_append env |}.

(** The sample collaborators without the failing analysis call. *)
Definition quiet_env : Env := fake_env sample_docs 2 (replicate 7 (PDict ∅)) "low risk".

(** ** The calls of one retrieval *)

(** A window for which [now - timedelta(days=days)] is a date of the years 1
    to 9999 on every clock that reads 1970-01-01 (day 719163 of the
    calendar) or later: the retrieval then reaches the search. *)
Definition window_in_range (days : Z) : Prop := (0 ≤ days ≤ 719162)%Z.

(** The successful scroll calls on the context [sid] that returned [pages]. *)
Definition scroll_calls (sid : string) (pages : list SearchResponse) : list event :=
  (λ resp, EsScroll sid "5m" (inr resp)) <$> pages.

Definition alert_index (space : string) : string :=
  ".internal.alerts-security.alerts-" +:+ space +:+ "-*".

(** The outcome and the calls of one retrieval with [fuel] iterations
    allowed. The search comes first. If it fails, nothing follows. If it
    returns [resp], scroll calls follow on the scroll id of [resp], one
    after each non-empty page received; then either a scroll call fails and
    nothing follows it, or the iterations run out, or a page comes back
    empty and exactly one release follows, which ends the retrieval with
    the hits of all pages received, or with the error of the release. *)
Inductive retrieval (fuel : nat) (space : string) (days : Z)
  : res (list pydict) → list event → Prop :=
| search_failed e :
    retrieval fuel space days (Raise e)
      [EsSearch (alert_index space) days "5m" 1000 (inl e)]
| scroll_failed resp pages e :
    Forall (λ page, hits page ≠ []) (resp :: pages) →
    retrieval fuel space days (Raise e)
      (EsSearch (alert_index space) days "5m" 1000 (inr resp)
       :: scroll_calls (_scroll_id resp) pages
       ++ [EsScroll (_scroll_id resp) "5m" (inl e)])
| scroll_unfinished resp pages :
    Forall (λ page, hits page ≠ []) (resp :: pages) →
    length pages = fuel →
    retrieval fuel space days OutOfFuel
      (EsSearch (alert_index space) days "5m" 1000 (inr resp)
       :: scroll_calls (_scroll_id resp) pages)
| released resp pages front last :
    resp :: pages = front ++ [last] →
    Forall (λ page, hits page ≠ []) front →
    hits last = [] →
    retrieval fuel space days
      (Ok (ElasticsearchConnector.record_of_hit <$> concat (hits <$> resp :: pages)))
      (EsSearch (alert_index space) days "5m" 1000 (inr resp)
       :: scroll_calls (_scroll_id resp) pages
       ++ [EsClearScroll (_scroll_id resp) (inr ())])
| release_failed resp pages front last e :
    resp :: pages = front ++ [last] →
    Forall (λ page, hits page ≠ []) front →
    hits last = [] →
    retrieval fuel space days (Raise e)
      (EsSearch (alert_index space) days "5m" 1000 (inr resp)
       :: scroll_calls (_scroll_id resp) pages
       ++ [EsClearScroll (_scroll_id resp) (inl e)]).

(** * Properties *)

(** ** Sanity checks of the embedding *)

Example kibana_init_sample :
  KibanaConnector.__init__ "https://kibana.example.com/" "soc" None
    (Some "elastic") (Some "changeme") false new_world
  = (Ok sample_kibana, new_world).
Proof. reflexivity. Qed.

Example get_signals_three :
  fst (ElasticsearchConnector.get_signals (fake_env [hit "a"; hit "b"; hit "c"] 2 [] "")
         sample_elastic 5 "soc" 30 new_world)
  = Ok (ElasticsearchConnector.record_of_hit <$> [hit "a"; hit "b"; hit "c"]).
Proof. vm_compute. reflexivity. Qed.

(** ** Laws of the monad *)

Section monad_laws.
Context {A B : Type}.
Implicit Types (m : M A) (f : A → M B).

Lemma bind_Ok m f w a w1 : m w = (Ok a, w1) → (m ≫= f) w = f a w1.
Proof. unfold mbind, M_bind. by intros ->. Qed.

Lemma bind_Raise m f w e w1 : m w = (Raise e, w1) → (m ≫= f) w = (Raise e, w1).
Proof. unfold mbind, M_bind. by intros ->. Qed.

Lemma bind_OutOfFuel m f w w1 : m w = (OutOfFuel, w1) → (m ≫= f) w = (OutOfFuel, w1).
Proof. unfold mbind, M_bind. by intros ->. Qed.

Lemma bind_Ok_inv m f w b w' :
  (m ≫= f) w = (Ok b, w') → ∃ a w1, m w = (Ok a, w1) ∧ f a w1 = (Ok b, w').
Proof.
  unfold mbind, M_bind. destruct (m w) as [[a|e|] w1]; [eauto | done | done].
Qed.

End monad_laws.

Lemma call_inr {A} (answer : list event → exn + A) ev w a :
  answer (history w) = inr a →
  call answer ev w = (Ok a, record_event (ev (inr a)) w).
Proof. unfold call. by intros ->. Qed.

Lemma call_inl {A} (answer : list event → exn + A) ev w e :
  answer (history w) = inl e →
  call answer ev w = (Raise e, record_event (ev (inl e)) w).
Proof. unfold call. by intros ->. Qed.

(** ** Pagination *)

Lemma ceil_div_0 b : 0 < b → ceil_div 0 b = 0.
Proof. intros Hb. unfold ceil_div. apply Nat.div_small. lia. Qed.

Lemma ceil_div_step a b : 0 < a → 0 < b → ceil_div a b = S (ceil_div (a - b) b).
Proof.
  intros Ha Hb. unfold ceil_div.
  destruct (decide (a ≤ b)) as [Hle|Hgt].
  - replace (a - b) with 0 by lia.
    rewrite (Nat.div_small (0 + b - 1) b) by lia.
    assert (b * 1 ≤ a + b - 1) as H1 by lia.
    assert (a + b - 1 < b * 2) as H2 by lia.
    apply Nat.div_le_lower_bound in H1; [|lia].
    apply Nat.Div0.div_lt_upper_bound in H2. lia.
  - replace (a + b - 1) with ((a - b + b - 1) + 1 * b) by lia.
    rewrite Nat.div_add by lia. lia.
Qed.

Lemma scrolls_since_search_from_snoc acc h ev :
  scrolls_since_search_from acc (h ++ [ev])
  = match ev with
    | EsSearch _ _ _ _ _ => 0
    | EsScroll _ _ _ => S (scrolls_since_search_from acc h)
    | _ => scrolls_since_search_from acc h
    end.
Proof.
  revert acc. induction h as [|ev' h IH]; intros acc; simpl.
  - by destruct ev.
  - destruct ev'; apply IH.
Qed.

Lemma page_nil docs P k : 0 < P → page docs P k = [] ↔ length (drop (k * P) docs) = 0.
Proof.
  intros HP. unfold page. split.
  - intros Hnil. apply (f_equal length) in Hnil.
    rewrite length_take in Hnil. simpl in Hnil. lia.
  - intros Hlen. apply nil_length_inv in Hlen. by rewrite Hlen, take_nil.
Qed.

Section pagination.
Context (env : Env) (docs : list Hit) (P : nat) (sid : string).
Hypothesis Hstore : paged_store env docs P sid.
Hypothesis HP : 0 < P.

Import ElasticsearchConnector.

Lemma scroll_loop_paged fuel : ∀ k results w,
  scrolls_since_search (history w) = k →
  length (drop (k * P) docs) ≤ fuel →
  scroll_loop env fuel sid {| _scroll_id := sid; hits := page docs P k |} results w
  = (Ok (results ++ (record_of_hit <$> drop (S k * P) docs)),
     {| history := history w ++ scroll_events docs P sid k (ceil_div (length (drop (k * P) docs)) P);
        stdout := stdout w |}).
Proof.
  induction fuel as [|fuel IH]; intros k results w Hk Hfuel.
  - assert (length (drop (k * P) docs) = 0) as Hlen by lia.
    assert (drop (S k * P) docs = []) as ->.
    { apply drop_ge. rewrite length_drop in Hlen. lia. }
    simpl. rewrite (proj2 (page_nil docs P k HP) Hlen). simpl.
    rewrite Hlen, ceil_div_0 by done. unfold scroll_events. simpl.
    rewrite !app_nil_r. by destruct w.
  - destruct (decide (length (drop (k * P) docs) = 0)) as [Hlen|Hlen].
    + assert (drop (S k * P) docs = []) as ->.
      { apply drop_ge. rewrite length_drop in Hlen. lia. }
      simpl. rewrite (proj2 (page_nil docs P k HP) Hlen). simpl.
      rewrite Hlen, ceil_div_0 by done. unfold scroll_events. simpl.
      rewrite !app_nil_r. by destruct w.
    + cbn [scroll_loop hits].
      destruct (length (page docs P k) =? 0) eqn:Hpage.
      { apply Nat.eqb_eq, nil_length_inv, page_nil in Hpage; done. }
      unfold client_scroll.
      erewrite bind_Ok; last first.
      { apply call_inr. rewrite (paged_scroll _ _ _ _ Hstore), Hk. done. }
      rewrite IH; cbn [history stdout record_event].
      * f_equal.
        -- f_equal. rewrite <- app_assoc. f_equal. rewrite <- fmap_app. f_equal.
           unfold page. replace (S (S k) * P) with (S k * P + P) by lia.
           rewrite <- drop_drop. apply take_drop.
        -- f_equal. rewrite <- app_assoc. f_equal.
           rewrite (ceil_div_step (length (drop (k * P) docs)) P) by lia.
           unfold scroll_events. cbn [seq fmap list_fmap]. f_equal.
           do 2 f_equal. rewrite !length_drop. f_equal. lia.
      * unfold scrolls_since_search. rewrite scrolls_since_search_from_snoc.
        by rewrite <- Hk.
      * rewrite !length_drop in *. lia.
Qed.

Lemma get_signals_paged this fuel space days w :
  length docs ≤ fuel →
  get_signals env this fuel space days w
  = (Ok (record_of_hit <$> docs),
     {| history := history w ++ retrieval_events docs P sid space days;
        stdout := stdout w |}).
Proof.
  intros Hfuel. unfold get_signals, client_search.
  erewrite bind_Ok; last first.
  { apply call_inr. apply (paged_search _ _ _ _ Hstore). }
  cbn [_scroll_id hits].
  erewrite bind_Ok; last first.
  { apply scroll_loop_paged; cbn [history record_event].
    - unfold scrolls_since_search. by rewrite scrolls_since_search_from_snoc.
    - by rewrite Nat.mul_0_l, drop_0. }
  unfold client_clear_scroll.
  erewrite bind_Ok; last first.
  { apply call_inr. apply (paged_clear _ _ _ _ Hstore). }
  unfold record_event. cbn [history stdout]. unfold mret, M_ret. f_equal.
  - f_equal. rewrite <- fmap_app. f_equal. unfold page.
    rewrite Nat.mul_0_l, drop_0, Nat.mul_1_l. apply take_drop.
  - f_equal. rewrite Nat.mul_0_l, drop_0. unfold retrieval_events.
    by rewrite <- !app_assoc.
Qed.


End pagination.

Lemma record_of_hit_id hit :
  ElasticsearchConnector.record_of_hit hit !! "id" = Some (PStr (_id hit)).
Proof. unfold ElasticsearchConnector.record_of_hit. apply lookup_insert_eq. Qed.

Lemma record_of_hit_source hit :
  ElasticsearchConnector.record_of_hit hit !! "source" = Some (_source hit).
Proof.
  unfold ElasticsearchConnector.record_of_hit.
  rewrite lookup_insert_ne by done. apply lookup_singleton_eq.
Qed.

Lemma fake_env_paged docs P rules narrative :
  paged_store (fake_env docs P rules narrative) docs P "scroll-1".
Proof. by split. Qed.

Lemma count_events_app p h1 h2 :
  count_events p (h1 ++ h2) = count_events p h1 + count_events p h2.
Proof. induction h1 as [|ev h1 IH]; simpl; [done|]. rewrite IH. lia. Qed.

Lemma count_events_none p h :
  Forall (λ ev, p ev = false) h → count_events p h = 0.
Proof.
  induction 1 as [|ev h Hev _ IH]; [done|]. simpl. by rewrite Hev, IH.
Qed.

(** Whatever the environment, the scroll loop makes scroll calls only and
    prints nothing. *)
Lemma scroll_loop_events env fuel : ∀ sid resp results w r w',
  ElasticsearchConnector.scroll_loop env fuel sid resp results w = (r, w') →
  ∃ evs, history w' = history w ++ evs ∧ stdout w' = stdout w
         ∧ Forall (λ ev, is_clear_scroll ev = false) evs.
Proof.
  induction fuel as [|fuel IH]; intros sid resp results w r w'; simpl.
  - destruct (length (hits resp) =? 0); intros [= <- <-];
      exists []; by rewrite app_nil_r.
  - destruct (length (hits resp) =? 0).
    { intros [= <- <-]. exists []. by rewrite app_nil_r. }
    unfold mbind, M_bind, ElasticsearchConnector.client_scroll, call.
    destruct (es_scroll env (history w) sid "5m") as [e|resp'].
    + intros [= <- <-]. eexists [_]. cbn [history stdout record_event]. repeat split.
      by repeat constructor.
    + intros Hloop. apply IH in Hloop as (evs & Hh & Hs & Hevs).
      cbn [history stdout record_event] in Hh, Hs. eexists (_ :: evs).
      rewrite Hh, <- app_assoc. repeat split; [done|]. by constructor.
Qed.

(** ** Claims about alert retrieval *)




(** C2. When [get_signals] propagates an error of the search or of a scroll
    call (the release itself does not fail), no release of the scroll context
    has been issued: the context opened by the search is left to expire. *)
Theorem get_signals_error_skips_release env this fuel space days w e w' :
  (∀ h sid, es_clear_scroll env h sid = inr ()) →
  ElasticsearchConnector.get_signals env this fuel space days w = (Raise e, w') →
  ∃ evs, history w' = history w ++ evs ∧ count_events is_clear_scroll evs = 0.
Proof.
  intros Hclear. unfold ElasticsearchConnector.get_signals.
  unfold mbind at 1, M_bind at 1, ElasticsearchConnector.client_search, call at 1.
  destruct (es_search env (history w) _ days "5m" 1000) as [e'|resp].
  { intros [= <- <-]. by eexists [_]. }
  unfold mbind at 1, M_bind at 1.
  destruct (ElasticsearchConnector.scroll_loop _ _ _ _ _ _) as [r w1] eqn:Hloop.
  apply scroll_loop_events in Hloop as (evs & Hh & _ & Hevs).
  cbn [history record_event] in Hh.
  destruct r as [results|e'|]; [|intros [= <- <-]|done].
  - unfold mbind, M_bind, ElasticsearchConnector.client_clear_scroll, call.
    by rewrite Hclear.
  - eexists (_ :: evs). rewrite Hh, <- app_assoc. split; [done|].
    change (?x :: evs) with ([x] ++ evs).
    rewrite count_events_app, (count_events_none _ evs) by done. done.
Qed.

(** The theorem at a store of three records served in pages of two whose
    first scroll call times out: search, failed scroll, and nothing else. *)
Lemma get_signals_error_skips_release_witness :
  let env := with_scroll_fault 0 (ExternalError "ConnectionTimeout")
               (fake_env [hit "a"; hit "b"; hit "c"] 2 [] "") in
  ∃ w', ElasticsearchConnector.get_signals env sample_elastic 3 "soc" 30 new_world
        = (Raise (ExternalError "ConnectionTimeout"), w')
      ∧ ∃ evs, history w' = history new_world ++ evs
               ∧ count_events is_clear_scroll evs = 0.
Proof.
  eexists. split; [vm_compute; reflexivity|].
  eapply (get_signals_error_skips_release
            (with_scroll_fault 0 (ExternalError "ConnectionTimeout")
               (fake_env [hit "a"; hit "b"; hit "c"] 2 [] ""))
            sample_elastic 3 "soc" 30 new_world).
  - done.
  - vm_compute. reflexivity.
Defined.

(** ** Claims about connector construction *)

(** C5 as stated fails when both schemes are supplied: neither constructor
    raises a validation error; both take the API key, and a connector is
    built. *)
Lemma both_schemes_accepted :
  ElasticsearchConnector.__init__ accepting_client "https://es.example.com:9200"
    (Some "key") (Some "elastic") (Some "changeme") true new_world
  = (Ok {| ElasticsearchConnector.hosts := ["https://es.example.com:9200"];
           ElasticsearchConnector.verify_certs := true;
           ElasticsearchConnector.client_auth :=
             ElasticsearchConnector.api_key_auth "key" |},
     new_world)
  ∧ KibanaConnector.__init__ "https://kibana.example.com" "default" (Some "key")
      (Some "elastic") (Some "changeme") true new_world
    = (Ok {| KibanaConnector.base_url := "https://kibana.example.com";
             KibanaConnector.space := "default";
             KibanaConnector.verify_ssl := true;
             KibanaConnector.headers :=
               [("kbn-xsrf", "true"); ("Authorization", "ApiKey key")];
             KibanaConnector.auth := None;
             KibanaConnector.api_endpoint := "https://kibana.example.com/api" |},
       new_world).
Proof. split; reflexivity. Qed.

(** C5 (amended). Constructing a connector succeeds only when at least one
    authentication scheme is supplied: a non-empty API key, or a non-empty
    username together with a non-empty password. With neither, construction
    fails with [ValueError] before any network call is made, and before the
    client library is given anything. Supplying both schemes at once is not
    a validation error: the API key is the scheme used and the username and
    password are ignored, so the Elasticsearch connector is built exactly as
    with the API key alone (whenever the client library accepts the host),
    and the Kibana connector is built with the API key header and no basic
    authentication. No constructor makes a call or prints. *)
Theorem connector_credentials Elasticsearch host space api_key username password
    verify_ssl w :
  (∀ r w', ElasticsearchConnector.__init__ Elasticsearch host api_key username password
             verify_ssl w = (r, w') → w' = w)
  ∧ (∀ r w', KibanaConnector.__init__ host space api_key username password verify_ssl w
             = (r, w') → w' = w)
  ∧ ((∃ es, fst (ElasticsearchConnector.__init__ Elasticsearch host api_key username
                   password verify_ssl w) = Ok es)
     → truthy api_key || truthy username && truthy password = true)
  ∧ ((∃ kb, fst (KibanaConnector.__init__ host space api_key username password
                   verify_ssl w) = Ok kb)
     ↔ truthy api_key || truthy username && truthy password = true)
  ∧ (truthy api_key || truthy username && truthy password = false →
     fst (ElasticsearchConnector.__init__ Elasticsearch host api_key username password
            verify_ssl w)
     = Raise credentials_error
     ∧ fst (KibanaConnector.__init__ host space api_key username password verify_ssl w)
       = Raise credentials_error)
  ∧ (truthy api_key = true →
     ElasticsearchConnector.__init__ Elasticsearch host api_key username password
       verify_ssl w
     = ElasticsearchConnector.__init__ Elasticsearch host api_key None None verify_ssl w
     ∧ (∀ es, fst (ElasticsearchConnector.__init__ Elasticsearch host api_key username
                     password verify_ssl w) = Ok es →
              ElasticsearchConnector.client_auth es
              = ElasticsearchConnector.api_key_auth (default "" api_key))
     ∧ (Elasticsearch [host] verify_ssl
          (ElasticsearchConnector.api_key_auth (default "" api_key)) = inr () →
        ∃ es, fst (ElasticsearchConnector.__init__ Elasticsearch host api_key username
                     password verify_ssl w) = Ok es)
     ∧ ∃ kb,
         fst (KibanaConnector.__init__ host space api_key username password verify_ssl w)
         = Ok kb
         ∧ KibanaConnector.auth kb = None
         ∧ KibanaConnector.headers kb
           = [("kbn-xsrf", "true");
              ("Authorization", "ApiKey " +:+ default "" api_key)]).
Proof.
  unfold ElasticsearchConnector.__init__, KibanaConnector.__init__, credentials_error.
  unfold mbind, M_bind, mret, M_ret, raise.
  destruct (truthy api_key), (truthy username), (truthy password); simpl;
    repeat match goal with
           | |- context [Elasticsearch ?h ?v ?a] =>
               destruct (Elasticsearch h v a) as [?|[]] eqn:?
           end;
    repeat split; try (intros ? ? [= _ <-]; done); try done;
    try (intros [? [=]]); try (intros ? [= <-]; done); eauto.
Qed.

(** ** Claims about prompt construction *)

Lemma pure_lookup_ret {A} (a : A) : pure_lookup (mret a).
Proof. by exists (Ok a). Qed.

Lemma pure_lookup_bind {A B} (m : M A) (f : A → M B) :
  pure_lookup m → (∀ a, pure_lookup (f a)) → pure_lookup (m ≫= f).
Proof.
  intros (r & Hr & Hm) Hf. destruct r as [a|e|]; [|exists (Raise e)|done].
  - destruct (Hf a) as (r' & Hr' & Hfa). exists r'. split; [done|].
    intros w. by rewrite (bind_Ok _ _ _ _ _ (Hm w)).
  - split; [done|]. intros w. by rewrite (bind_Raise _ _ _ _ _ (Hm w)).
Qed.

Lemma pure_lookup_py_get v key dflt : pure_lookup (py_get v key dflt).
Proof.
  destruct v; try (eexists (Raise _); split; [by eexists|done]).
  by eexists (Ok _).
Qed.

Lemma extract_pure signal : pure_lookup (AISecurityAnalyst.extract signal).
Proof.
  unfold AISecurityAnalyst.extract.
  repeat (apply pure_lookup_bind; [apply pure_lookup_py_get|intros ?]).
  apply pure_lookup_ret.
Qed.

Lemma create_signal_prompt_pure `{Builtins} this signal :
  pure_lookup (AISecurityAnalyst._create_signal_prompt this signal).
Proof.
  apply pure_lookup_bind; [apply extract_pure|intros ?; apply pure_lookup_ret].
Qed.

(** C7. Prompt construction is deterministic: the outcome of
    [_create_signal_prompt] is a function of the alert record alone. Two
    calls with the same record give the same string (or the same error),
    whatever the analyst's configuration and whatever has been called, logged
    or printed in between, and a call leaves the world as it found it. *)
Theorem create_signal_prompt_deterministic `{Builtins} this1 this2 signal w1 w2 :
  fst (AISecurityAnalyst._create_signal_prompt this1 signal w1)
  = fst (AISecurityAnalyst._create_signal_prompt this2 signal w2)
  ∧ snd (AISecurityAnalyst._create_signal_prompt this1 signal w1) = w1.
Proof.
  destruct (create_signal_prompt_pure this1 signal) as (r & _ & Hr).
  unfold AISecurityAnalyst._create_signal_prompt in *.
  by rewrite (Hr w1), (Hr w2).
Qed.

Lemma dig_snoc v path key :
  dig v (path ++ [key])
  = dig v path ≫= λ v', match v' with PDict d => d !! key | _ => None end.
Proof.
  revert v. induction path as [|k path IH]; intros v; simpl.
  - destruct v; try done. by destruct (d !! key).
  - destruct v; try done. destruct (d !! k) as [v'|]; simpl; [apply IH|done].
Qed.

(** A [.get] on the container at [path], when that container is a mapping
    or absent, yields the value one key further down, or the default. *)
Lemma py_get_field signal path key dflt w :
  from_option is_dict true (dig (source_of signal) path) = true →
  py_get (field signal path AISecurityAnalyst.empty_dict) key dflt w
  = (Ok (field signal (path ++ [key]) dflt), w).
Proof.
  unfold field. rewrite dig_snoc.
  destruct (dig (source_of signal) path) as [v|]; simpl.
  - by destruct v.
  - intros _. unfold AISecurityAnalyst.empty_dict. simpl.
    by rewrite lookup_empty.
Qed.

Lemma extract_well_shaped signal w :
  well_shaped signal = true →
  AISecurityAnalyst.extract signal w = (Ok (expected_request signal), w).
Proof.
  unfold well_shaped, container_paths. cbn [forallb].
  rewrite !andb_true_iff. intros (?&?&?&?&?&?&?&?&?&?&_).
  unfold AISecurityAnalyst.extract.
  change (default AISecurityAnalyst.empty_dict (signal !! "source"))
    with (field signal [] AISecurityAnalyst.empty_dict).
  repeat (erewrite bind_Ok by (apply py_get_field; assumption); cbn [app]).
  reflexivity.
Qed.

Lemma expected_request_empty signal :
  source_of signal = AISecurityAnalyst.empty_dict →
  expected_request signal = request_not_available.
Proof.
  intros Hsrc. unfold expected_request, request_not_available, field.
  rewrite Hsrc. unfold AISecurityAnalyst.empty_dict. cbn [dig].
  by rewrite !lookup_empty.
Qed.

Lemma py_get_Ok_inv v key dflt w x w' :
  py_get v key dflt w = (Ok x, w') →
  ∃ d, v = PDict d ∧ x = default dflt (d !! key) ∧ w' = w.
Proof. destruct v; try done. intros [= <- <-]. by eexists. Qed.

(** The builder succeeds on well-shaped records only. *)
Lemma extract_Ok_well_shaped signal w request w' :
  AISecurityAnalyst.extract signal w = (Ok request, w') → well_shaped signal = true.
Proof.
  unfold AISecurityAnalyst.extract. intros Hx.
  repeat (apply bind_Ok_inv in Hx as (? & ? & [? (? & ? & ?)]%py_get_Ok_inv & Hx)).
  clear Hx. unfold well_shaped, container_paths, source_of.
  unfold AISecurityAnalyst.empty_dict in *. simplify_eq.
  cbn [forallb dig].
  match goal with
  | H : default _ (signal !! "source") = PDict _ |- _ => rewrite H in *
  end.
  simplify_eq.
  repeat match goal with
         | H : default _ (?d !! ?k) = PDict _ |- _ =>
             destruct (d !! k) eqn:?; simpl in *; simplify_eq
         end;
    repeat (simpl; rewrite ?lookup_empty;
            match goal with
            | H : ?d !! ?k = _ |- context [?d !! ?k] => rewrite H
            end);
    done.
Qed.

(** On a record that is not well-shaped the builder raises [AttributeError]
    and changes nothing. *)
Lemma extract_ill_shaped signal w :
  well_shaped signal = false →
  ∃ tyname, AISecurityAnalyst.extract signal w = (Raise (AttributeError tyname "get"), w).
Proof.
  intros Hws. destruct (extract_pure signal) as (r & Hr & Hx).
  destruct r as [request|e|]; [|destruct Hr as [tyname ->]; by exists tyname|done].
  specialize (Hx w). apply extract_Ok_well_shaped in Hx. congruence.
Qed.

(** C4 as stated fails on a wrong-shaped value: a record whose [process] is a
    string makes the prompt builder raise, and a rule name that is a number
    is passed on as it is, not replaced by "N/A". *)
Lemma prompt_rejects_wrong_shape :
  fst (AISecurityAnalyst._create_signal_prompt (ai_analyst "k")
         {[ "id" := PStr "a1";
            "source" := PDict {[ "process" := PStr "cmd.exe" ]} ]} new_world)
  = Raise (AttributeError "str" "get")
  ∧ (∃ request,
       fst (AISecurityAnalyst.extract
              {[ "id" := PStr "a1";
                 "source" := PDict {[ "process" := PDict {[ "name" := PInt 42 ]} ]} ]}
              new_world) = Ok request
       ∧ AISecurityAnalyst.process_name request = PInt 42).
Proof. split; [vm_compute; reflexivity|]. eexists. split; vm_compute; reflexivity. Qed.

(** C4 (amended). For every alert record in which each container the builder
    descends into (the source mapping, process, process.parent, kibana,
    kibana.alert, kibana.alert.rule, its parameters, host, host.os, user) is a
    mapping when present, building the request does not raise and changes
    nothing; each field is the value found at its path, or "N/A" (the empty
    list for the technique list) when nothing is there. An empty source
    mapping gives the request whose every field is "N/A" and whose technique
    list is empty. *)
Theorem create_signal_prompt_total `{Builtins} this signal w :
  well_shaped signal = true →
  AISecurityAnalyst.extract signal w = (Ok (expected_request signal), w)
  ∧ AISecurityAnalyst._create_signal_prompt this signal w
    = (Ok (AISecurityAnalyst.render (expected_request signal)), w)
  ∧ (source_of signal = AISecurityAnalyst.empty_dict →
     expected_request signal = request_not_available).
Proof.
  intros Hws. split; [by apply extract_well_shaped|]. split.
  - unfold AISecurityAnalyst._create_signal_prompt.
    by erewrite bind_Ok by (by apply extract_well_shaped).
  - apply expected_request_empty.
Qed.

(** The theorem at the record [{'id': 'a1', 'source': {}}]. *)
Lemma create_signal_prompt_total_witness :
  let signal : pydict := {[ "id" := PStr "a1"; "source" := PDict ∅ ]} in
  AISecurityAnalyst.extract signal new_world = (Ok (expected_request signal), new_world)
  ∧ AISecurityAnalyst._create_signal_prompt (ai_analyst "k") signal new_world
    = (Ok (AISecurityAnalyst.render (expected_request signal)), new_world)
  ∧ (source_of signal = AISecurityAnalyst.empty_dict →
     expected_request signal = request_not_available).
Proof.
  apply (create_signal_prompt_total (ai_analyst "k")
           {[ "id" := PStr "a1"; "source" := PDict ∅ ]} new_world).
  vm_compute. reflexivity.
Defined.

Example prompt_of_empty_source :
  AISecurityAnalyst.extract {[ "id" := PStr "a1"; "source" := PDict ∅ ]} new_world
  = (Ok request_not_available, new_world).
Proof. vm_compute. reflexivity. Qed.

(** ** The analysis call and the run *)

Lemma bind_call {A B} (answer : list event → exn + A) ev (f : A → M B) w :
  (call answer ev ≫= f) w
  = match answer (history w) with
    | inl e => (Raise e, record_event (ev (inl e)) w)
    | inr a => f a (record_event (ev (inr a)) w)
    end.
Proof. unfold mbind, M_bind, call. by destruct (answer (history w)). Qed.

Lemma bind_py_getitem {B} (d : pydict) key (f : pyval → M B) w :
  (py_getitem d key ≫= f) w
  = match d !! key with
    | Some v => f v w
    | None => (Raise (KeyError key), w)
    end.
Proof. unfold mbind, M_bind, py_getitem. by destruct (d !! key). Qed.

Lemma note_ids_app h1 h2 : note_ids (h1 ++ h2) = note_ids h1 ++ note_ids h2.
Proof.
  induction h1 as [|ev h1 IH]; [done|]. destruct ev; simpl; by rewrite ?IH.
Qed.

Section run.
Context (env : Env) `{Builtins}.
Context (kibana : KibanaConnector.self) (analyst : AISecurityAnalyst.self).

Ltac finish_events :=
  unfold record_event; cbn [history stdout]; rewrite <- ?app_assoc;
  eexists; split; [reflexivity|].

Ltac each_event :=
  repeat (apply Forall_cons_2; [first [exact I | assumption]|]); apply Forall_nil_2.

Ltac leaf :=
  intros [= <- <-]; finish_events;
  repeat split; try done; try (simpl; lia); try each_event.

Lemma analyze_signal_spec signal w r w' :
  AISecurityAnalyst.analyze_signal env analyst signal w = (r, w') →
  ∃ evs, history w' = history w ++ evs
    ∧ stdout w' = stdout w
    ∧ r ≠ OutOfFuel
    ∧ (∀ a, r = Ok a → signal !! "id" = Some (AISecurityAnalyst.signal_id a))
    ∧ Forall (chat_contract analyst signal) evs
    ∧ count_events is_chat evs ≤ 1
    ∧ note_ids evs = [].
Proof.
  unfold AISecurityAnalyst.analyze_signal, AISecurityAnalyst._create_signal_prompt.
  destruct (extract_pure signal) as (rx & Hrx & Hx).
  destruct rx as [request|e|]; [| |done].
  2: { rewrite (bind_Raise _ _ _ _ _ (bind_Raise _ _ _ _ _ (Hx w))).
       intros [= <- <-]. exists []. rewrite app_nil_r. repeat split; try done.
       simpl. lia. }
  erewrite bind_Ok by (erewrite bind_Ok by apply Hx; reflexivity).
  unfold AISecurityAnalyst._log_debug, AISecurityAnalyst.chat_completions_create.
  rewrite bind_call. destruct (log_append env _ _ _ _) as [e|[]].
  { leaf. }
  rewrite bind_call. destruct (log_append env _ _ _ _) as [e|[]].
  { leaf. }
  assert (chat_contract analyst signal
            (ChatCreate (AISecurityAnalyst.model analyst)
               [AISecurityAnalyst.system_message;
                {| role := "user"; content := AISecurityAnalyst.render request |}]
               (AISecurityAnalyst.temperature analyst)
               (chat_create env
                  (history (record_event
                     (LogAppend (AISecurityAnalyst.log_file analyst) "Generated Prompt:"
                        (PStr (AISecurityAnalyst.render request)) (inr ()))
                     (record_event
                        (LogAppend (AISecurityAnalyst.log_file analyst) "Input Signal:"
                           (PDict signal) (inr ())) w)))
                  (AISecurityAnalyst.model analyst)
                  [AISecurityAnalyst.system_message;
                   {| role := "user"; content := AISecurityAnalyst.render request |}]
                  (AISecurityAnalyst.temperature analyst)))) as Hchat.
  { simpl. repeat split. by exists request. }
  rewrite bind_call. revert Hchat.
  destruct (chat_create env _ _ _ _) as [e|response]; intros Hchat.
  { leaf. }
  rewrite bind_call. destruct (log_append env _ _ _ _) as [e|[]].
  { leaf. }
  rewrite bind_py_getitem. destruct (signal !! "id") as [id|] eqn:Hid.
  2: { leaf. }
  unfold mbind at 1, M_bind at 1, AISecurityAnalyst.first_choice_content.
  destruct (choices response) as [|c ?].
  { leaf. }
  unfold mret at 1, M_ret at 1.
  rewrite bind_py_getitem. destruct (signal !! "source") as [source|].
  2: { leaf. }
  destruct (pure_lookup_py_get source "@timestamp" PNone) as (rt & Hrt & Ht).
  unfold mbind, M_bind. rewrite Ht.
  destruct rt as [ts|e|]; [| |done]; leaf.
  by intros a [= <-].
Qed.

Lemma enrich_spec signal w r w' :
  enrich env kibana analyst signal w = (r, w') →
  ∃ evs, history w' = history w ++ evs
    ∧ Forall (chat_contract analyst signal) evs
    ∧ count_events is_chat evs ≤ 1
    ∧ match r with
      | Ok _ =>
          ∃ id, signal !! "id" = Some id
                ∧ stdout w' = stdout w ++ [success_line id]
                ∧ note_ids evs = [id]
                ∧ count_events is_note_written evs = 1
      | Raise e =>
          stdout w' = stdout w
          ∧ count_events is_note_written evs = 0
          ∧ (note_ids evs = [] ∨ ∃ id, signal !! "id" = Some id ∧ note_ids evs = [id])
      | OutOfFuel => False
      end.
Proof.
  unfold enrich. unfold mbind at 1, M_bind at 1.
  destruct (AISecurityAnalyst.analyze_signal env analyst signal w) as [ra w1] eqn:Ha.
  apply analyze_signal_spec in Ha as (evs1 & Hh & Hs & Hne & Hid & Hchat & Hcount & Hnotes).
  assert (count_events is_note_written evs1 = 0) as Hwritten.
  { clear -Hnotes. induction evs1 as [|ev evs1 IH]; [done|].
    destruct ev; simpl in *; try by apply IH. done. }
  destruct ra as [a|e|]; [| |done].
  2: { intros [= <- <-]. exists evs1. repeat split; try done. by left. }
  specialize (Hid a eq_refl).
  rewrite bind_py_getitem, Hid. cbv zeta. rewrite bind_py_getitem, Hid.
  unfold KibanaConnector.add_note.
  rewrite bind_call.
  destruct (kbn_add_note env _ _ _ _ _) as [e|v].
  2: rewrite bind_py_getitem, Hid; unfold print.
  all: intros [= <- <-]; unfold record_event; cbn [history stdout];
    rewrite Hh, <- app_assoc; (eexists; split; [reflexivity|]);
    rewrite Forall_app, !count_events_app, note_ids_app, Hnotes, Hwritten, Hs;
    (split; [split; [done|by apply Forall_cons_2]|]); (split; [simpl; lia|]).
  - repeat split; try done. right. by eexists.
  - by eexists.
Qed.

(** A record that carries an id is always processed to completion: one line
    is printed for it, the success marker if the body of the [try] returned
    and the failure marker with the error if it raised. *)
Lemma process_signal_with_id signal id w :
  signal !! "id" = Some id →
  ∃ r0 w0,
    enrich env kibana analyst signal w = (r0, w0)
    ∧ match r0 with
      | Ok _ => process_signal env kibana analyst signal w = (Ok (), w0)
      | Raise e =>
          process_signal env kibana analyst signal w
          = (Ok (), {| history := history w0; stdout := stdout w0 ++ [failure_line id e] |})
      | OutOfFuel => False
      end.
Proof.
  intros Hid. unfold process_signal, try_except.
  destruct (enrich env kibana analyst signal w) as [r0 w0] eqn:He.
  exists r0, w0. split; [done|].
  apply enrich_spec in He as (evs & _ & _ & _ & Hr).
  destruct r0 as [[]|e|]; [done| |done].
  unfold report_failure. by rewrite bind_py_getitem, Hid.
Qed.

(** A record without an id makes the handler itself raise. *)
Lemma process_signal_without_id signal w :
  signal !! "id" = None →
  ∃ e w0,
    enrich env kibana analyst signal w = (Raise e, w0)
    ∧ report_failure signal e w0 = (Raise (KeyError "id"), w0)
    ∧ process_signal env kibana analyst signal w = (Raise (KeyError "id"), w0)
    ∧ stdout w0 = stdout w.
Proof.
  intros Hid. unfold process_signal, try_except.
  destruct (enrich env kibana analyst signal w) as [r0 w0] eqn:He.
  apply enrich_spec in He as (evs & _ & _ & _ & Hr).
  destruct r0 as [[]|e|]; [|exists e, w0|done].
  - destruct Hr as (id & Hid' & _). congruence.
  - unfold report_failure. rewrite bind_py_getitem, Hid.
    destruct Hr as (Hs & _). done.
Qed.

End run.

Section run_log.
Context (env : Env) `{Builtins}.
Context (kibana : KibanaConnector.self) (analyst : AISecurityAnalyst.self).

Lemma for_each_run signals :
  Forall has_id signals →
  ∀ w, ∃ log w', for_each env kibana analyst signals w = (Ok (), w')
                 ∧ run env kibana analyst signals w log w'.
Proof.
  induction 1 as [|signal rest [id Hid] _ IH]; intros w.
  - exists [], w. split; [done|constructor].
  - destruct (process_signal_with_id env kibana analyst signal id w Hid)
      as (r0 & w0 & He & Hp).
    destruct r0 as [[]|e|]; [| |done].
    + destruct (IH w0) as (log & w' & Hrest & Hrun).
      exists ((id, None) :: log), w'. split; [|by econstructor].
      simpl. by erewrite bind_Ok by exact Hp.
    + destruct (IH (printed (failure_line id e) w0)) as (log & w' & Hrest & Hrun).
      exists ((id, Some e) :: log), w'. split; [|by econstructor].
      simpl. by erewrite bind_Ok by exact Hp.
Qed.

Lemma run_length signals w log w' : run env kibana analyst signals w log w' → length log = length signals.
Proof. induction 1; simpl; congruence. Qed.

Lemma run_ids signals w log w' :
  run env kibana analyst signals w log w' → Forall2 (λ signal entry, signal !! "id" = Some entry.1) signals log.
Proof. induction 1; by constructor. Qed.

Lemma run_stdout signals w log w' :
  run env kibana analyst signals w log w' → stdout w' = stdout w ++ (report_line <$> log).
Proof.
  induction 1 as [w|signal id rest w w1 log w' Hid He _ IH
                  |signal id e rest w w1 log w' Hid He _ IH].
  - by rewrite app_nil_r.
  - apply enrich_spec in He as (evs & _ & _ & _ & id' & Hid' & Hs & _).
    assert (id' = id) as -> by congruence.
    by rewrite IH, Hs, <- app_assoc.
  - apply enrich_spec in He as (evs & _ & _ & _ & Hs & _).
    rewrite IH. unfold printed. cbn [stdout]. by rewrite Hs, <- app_assoc.
Qed.


(** What one iteration of the loop records, whether or not the record has an
    id. *)
Lemma process_signal_events signal w r w' :
  process_signal env kibana analyst signal w = (r, w') →
  ∃ evs, history w' = history w ++ evs
    ∧ r ≠ OutOfFuel
    ∧ Forall (chat_contract analyst signal) evs
    ∧ (note_ids evs = [] ∨ ∃ id, signal !! "id" = Some id ∧ note_ids evs = [id]).
Proof.
  unfold process_signal, try_except.
  destruct (enrich env kibana analyst signal w) as [r0 w0] eqn:He.
  apply enrich_spec in He as (evs & Hh & Hchat & _ & Hr).
  destruct r0 as [[]|e|]; [| |done].
  - intros [= <- <-]. exists evs. destruct Hr as (id & Hid & _ & Hn & _).
    repeat split; try done. right. by exists id.
  - unfold report_failure. rewrite bind_py_getitem.
    destruct Hr as (_ & _ & Hn).
    destruct (signal !! "id") as [id|]; intros [= <- <-]; exists evs; done.
Qed.

(** The notes written during a loop are keyed, in order, by the ids of
    records of the sequence. *)
Lemma for_each_notes signals : ∀ w r w',
  for_each env kibana analyst signals w = (r, w') →
  ∃ evs annotated,
    history w' = history w ++ evs
    ∧ annotated `sublist_of` signals
    ∧ Some <$> note_ids evs = (λ signal : pydict, signal !! "id") <$> annotated.
Proof.
  induction signals as [|signal rest IH]; intros w r w'; simpl.
  - intros [= <- <-]. exists [], []. by rewrite app_nil_r.
  - unfold mbind, M_bind.
    destruct (process_signal env kibana analyst signal w) as [r1 w1] eqn:Hp.
    apply process_signal_events in Hp as (evs & Hh & _ & _ & Hn).
    assert (∃ annotated, annotated `sublist_of` [signal]
              ∧ Some <$> note_ids evs = (λ signal : pydict, signal !! "id") <$> annotated)
      as (ann1 & Hsub1 & Hann1).
    { destruct Hn as [->|(id & Hid & ->)].
      - exists []. split; [apply sublist_nil_l|done].
      - exists [signal]. split; [done|]. simpl. by rewrite Hid. }
    destruct r1 as [[]|e|].
    + intros Hrest. apply IH in Hrest as (evs' & ann2 & Hh' & Hsub2 & Hann2).
      exists (evs ++ evs'), (ann1 ++ ann2).
      rewrite Hh', Hh, <- app_assoc, note_ids_app, !fmap_app, Hann1, Hann2.
      repeat split; try done. by apply (sublist_app _ [signal]).
    + intros [= <- <-]. exists evs, ann1. repeat split; try done.
      apply (sublist_inserts_r rest) in Hsub1. done.
    + intros [= <- <-]. exists evs, ann1. repeat split; try done.
      apply (sublist_inserts_r rest) in Hsub1. done.
Qed.

End run_log.

Lemma fetched_has_id signal : fetched signal → has_id signal.
Proof. intros [hit ->]. unfold has_id. rewrite record_of_hit_id. by eexists. Qed.




Lemma rules_loop_stdout env fuel : ∀ url page per_page all_rules w r w',
  KibanaConnector.rules_loop env fuel url page per_page all_rules w = (r, w') →
  stdout w' = stdout w.
Proof.
  induction fuel as [|fuel IH]; intros url page per_page all_rules w r w'; simpl.
  - by intros [= <- <-].
  - unfold KibanaConnector.find_rules. rewrite bind_call.
    destruct (kbn_find_rules env _ _ _ _) as [e|rules]; [by intros [= <- <-]|].
    destruct (length rules <? per_page); [by intros [= <- <-]|].
    intros Hloop. by apply IH in Hloop.
Qed.

Section notes.
Context (env : Env) `{Builtins}.
Context (kibana : KibanaConnector.self) (analyst : AISecurityAnalyst.self).

Lemma no_notes_contract signal evs :
  note_ids evs = [] → Forall (note_contract env analyst signal) evs.
Proof.
  induction evs as [|ev evs IH]; [constructor|].
  destruct ev; simpl; try done; intros Hn; apply Forall_cons_2; auto; exact I.
Qed.

Lemma process_signal_notes signal w r w' :
  process_signal env kibana analyst signal w = (r, w') →
  ∃ evs, history w' = history w ++ evs ∧ Forall (note_contract env analyst signal) evs.
Proof.
  assert (∀ r0 w0, enrich env kibana analyst signal w = (r0, w0) →
            ∃ evs, history w0 = history w ++ evs ∧ Forall (note_contract env analyst signal) evs)
    as Henrich.
  { intros r0 w0. unfold enrich. unfold mbind at 1, M_bind at 1.
    destruct (AISecurityAnalyst.analyze_signal env analyst signal w) as [ra w1] eqn:Ha.
    pose proof Ha as Hspec.
    apply analyze_signal_spec in Hspec as (evs1 & Hh & _ & _ & Hid & _ & _ & Hnotes).
    apply (no_notes_contract signal) in Hnotes.
    destruct ra as [a|e|]; [|intros [= <- <-]; by exists evs1..].
    specialize (Hid a eq_refl).
    rewrite bind_py_getitem, Hid. cbv zeta. rewrite bind_py_getitem, Hid.
    unfold KibanaConnector.add_note. rewrite bind_call.
    destruct (kbn_add_note env _ _ _ _ _) as [e|v].
    2: rewrite bind_py_getitem, Hid; unfold print.
    all: intros [= <- <-]; unfold record_event; cbn [history stdout];
      rewrite Hh, <- app_assoc; (eexists; split; [reflexivity|]);
      apply Forall_app; (split; [done|]); apply Forall_cons_2; [|constructor];
      (split; [done|]); by exists a, w, w1. }
  unfold process_signal, try_except.
  destruct (enrich env kibana analyst signal w) as [r0 w0] eqn:He.
  destruct (Henrich r0 w0 eq_refl) as (evs & Hh & Hn).
  destruct r0 as [[]|e|]; try (intros [= <- <-]; by exists evs).
  unfold report_failure. rewrite bind_py_getitem.
  destruct (signal !! "id"); intros [= <- <-]; by exists evs.
Qed.

Lemma for_each_note_contracts signals : ∀ w r w',
  for_each env kibana analyst signals w = (r, w') →
  ∃ evs, history w' = history w ++ evs
         ∧ Forall (λ ev, ∃ signal, signal ∈ signals ∧ note_contract env analyst signal ev) evs.
Proof.
  induction signals as [|signal rest IH]; intros w r w'; simpl.
  - intros [= <- <-]. exists []. by rewrite app_nil_r.
  - unfold mbind, M_bind.
    destruct (process_signal env kibana analyst signal w) as [r1 w1] eqn:Hp.
    apply process_signal_notes in Hp as (evs & Hh & Hn).
    assert (Forall (λ ev, ∃ s, s ∈ signal :: rest ∧ note_contract env analyst s ev) evs) as Hn'.
    { eapply Forall_impl; [exact Hn|]. intros ev Hev. exists signal.
      split; [apply list_elem_of_here|done]. }
    destruct r1 as [[]|e|]; try (intros [= <- <-]; by exists evs).
    intros Hrest. apply IH in Hrest as (evs' & Hh' & Hn'').
    exists (evs ++ evs'). rewrite Hh', Hh, <- app_assoc. split; [done|].
    apply Forall_app. split; [done|].
    eapply Forall_impl; [exact Hn''|]. intros ev (s & Hs & Hev). exists s.
    split; [by apply list_elem_of_further|done].
Qed.

Lemma for_each_app pre post w :
  for_each env kibana analyst (pre ++ post) w
  = (for_each env kibana analyst pre ≫= λ _, for_each env kibana analyst post) w.
Proof.
  revert w. induction pre as [|signal pre IH]; intros w; [done|].
  simpl. unfold mbind, M_bind in *.
  destruct (process_signal env kibana analyst signal w) as [[[]|e|] w1]; [|done..].
  apply IH.
Qed.

End notes.

(** ** Claims about the run *)



Example sample_run_output :
  stdout (snd (main sample_env sample_kibana sample_elastic (ai_analyst "k") 3 new_world))
  = ["Found 7 rules"; "Found 3 signals"; "✓ Processed signal a";
     "✗ Error processing signal b: rate limited"; "✓ Processed signal c"].
Proof. vm_compute. reflexivity. Qed.

(** C6. In every run of the loop, whatever its outcome, each note written is
    keyed by the id of a record of the sequence and carries an analysis
    result of that same record, whose [signal_id] is that id; and the ids the
    notes are keyed by are, in order, the ids of records of the sequence. *)
Theorem correlation_integrity `{Builtins} env kibana analyst signals w r w' :
  for_each env kibana analyst signals w = (r, w') →
  ∃ evs annotated,
    history w' = history w ++ evs
    ∧ annotated `sublist_of` signals
    ∧ Some <$> note_ids evs = (λ signal : pydict, signal !! "id") <$> annotated
    ∧ Forall (λ ev, ∃ signal, signal ∈ signals
                              ∧ note_contract env analyst signal ev) evs.
Proof.
  intros Hloop.
  destruct (for_each_notes env kibana analyst signals w r w' Hloop)
    as (evs & annotated & Hh & Hsub & Hids).
  destruct (for_each_note_contracts env kibana analyst signals w r w' Hloop)
    as (evs' & Hh' & Hn).
  assert (evs' = evs) as -> by (apply (app_inv_head (history w)); congruence).
  by exists evs, annotated.
Qed.

(** The theorem at the sample run. *)
Lemma correlation_integrity_witness :
  ∃ evs annotated,
    history (snd (for_each sample_env sample_kibana (ai_analyst "k") sample_signals
                    new_world))
    = history new_world ++ evs
    ∧ annotated `sublist_of` sample_signals
    ∧ Some <$> note_ids evs = (λ signal : pydict, signal !! "id") <$> annotated
    ∧ Forall (λ ev, ∃ signal, signal ∈ sample_signals
                              ∧ note_contract sample_env (ai_analyst "k") signal ev) evs.
Proof.
  apply (correlation_integrity sample_env sample_kibana (ai_analyst "k") sample_signals
           new_world
           (fst (for_each sample_env sample_kibana (ai_analyst "k") sample_signals
                   new_world))).
  vm_compute. reflexivity.
Defined.

Example sample_run_notes :
  note_ids (history (snd (for_each sample_env sample_kibana (ai_analyst "k")
                            sample_signals new_world)))
  = [PStr "a"; PStr "c"].
Proof. vm_compute. reflexivity. Qed.

(** C8 as stated fails on the temperature: the constructor has a default for
    it, the script builds its analyst without one, and the analysis call
    then goes out with 0.3. *)
Lemma temperature_has_default :
  AISecurityAnalyst.temperature (AISecurityAnalyst.__init__ "k" None None) = (3 # 10)%Q
  ∧ AISecurityAnalyst.temperature (ai_analyst "k") = (3 # 10)%Q
  ∧ ∃ messages response,
      history (snd (AISecurityAnalyst.analyze_signal sample_env (ai_analyst "k")
                      (ElasticsearchConnector.record_of_hit (hit "a")) new_world)) !! 2
      = Some (ChatCreate "gpt-4o" messages (3 # 10)%Q response).
Proof. split; [done|]. split; [done|]. eexists _, _. vm_compute. reflexivity. Qed.

(** C8 (amended). Every analysis-service call of [analyze_signal] (there is
    at most one) carries exactly two messages, the fixed system instruction
    and the rendered request of the record as the user message, together
    with the analyst's model and temperature. Model and temperature are
    optional constructor parameters: an analyst built without them uses
    "gpt-4o" and 0.3. *)
Theorem chat_request_contract `{Builtins} env openai_api_key model temperature
    signal w r w' :
  AISecurityAnalyst.analyze_signal env
    (AISecurityAnalyst.__init__ openai_api_key model temperature) signal w = (r, w') →
  ∃ evs,
    history w' = history w ++ evs
    ∧ count_events is_chat evs ≤ 1
    ∧ Forall (chat_contract
                (AISecurityAnalyst.__init__ openai_api_key model temperature) signal) evs
    ∧ AISecurityAnalyst.model
        (AISecurityAnalyst.__init__ openai_api_key model temperature)
      = default "gpt-4o" model
    ∧ AISecurityAnalyst.temperature
        (AISecurityAnalyst.__init__ openai_api_key model temperature)
      = default (3 # 10)%Q temperature.
Proof.
  intros Ha.
  apply analyze_signal_spec in Ha as (evs & Hh & _ & _ & _ & Hchat & Hcount & _).
  by exists evs.
Qed.

(** The theorem at the first record of the sample run, for an analyst built
    with a model and a temperature of its own. *)
Lemma chat_request_contract_witness :
  ∃ evs,
    history (snd (AISecurityAnalyst.analyze_signal sample_env
                    (AISecurityAnalyst.__init__ "k" (Some "gpt-4") (Some (1 # 10)%Q))
                    (ElasticsearchConnector.record_of_hit (hit "a")) new_world))
    = history new_world ++ evs
    ∧ count_events is_chat evs ≤ 1
    ∧ Forall (chat_contract
                (AISecurityAnalyst.__init__ "k" (Some "gpt-4") (Some (1 # 10)%Q))
                (ElasticsearchConnector.record_of_hit (hit "a"))) evs
    ∧ AISecurityAnalyst.model
        (AISecurityAnalyst.__init__ "k" (Some "gpt-4") (Some (1 # 10)%Q))
      = default "gpt-4o" (Some "gpt-4")
    ∧ AISecurityAnalyst.temperature
        (AISecurityAnalyst.__init__ "k" (Some "gpt-4") (Some (1 # 10)%Q))
      = default (3 # 10)%Q (Some (1 # 10)%Q).
Proof.
  apply (chat_request_contract sample_env "k" (Some "gpt-4") (Some (1 # 10)%Q)
           (ElasticsearchConnector.record_of_hit (hit "a")) new_world
           (fst (AISecurityAnalyst.analyze_signal sample_env
                   (AISecurityAnalyst.__init__ "k" (Some "gpt-4") (Some (1 # 10)%Q))
                   (ElasticsearchConnector.record_of_hit (hit "a")) new_world))).
  vm_compute. reflexivity.
Defined.




(** C10. A record without the key ["id"] aborts the run: the body of the
    [try] raises for it, the handler then raises [KeyError] on its own
    lookup of the id, and the loop propagates that error. The records before
    it are processed and reported as usual; neither the record itself nor
    any record after it gets a line. *)
Theorem missing_id_aborts_run `{Builtins} env kibana analyst pre signal post w :
  Forall has_id pre →
  signal !! "id" = None →
  ∃ log w1 e w2,
    run env kibana analyst pre w log w1
    ∧ enrich env kibana analyst signal w1 = (Raise e, w2)
    ∧ report_failure signal e w2 = (Raise (KeyError "id"), w2)
    ∧ process_signal env kibana analyst signal w1 = (Raise (KeyError "id"), w2)
    ∧ for_each env kibana analyst (pre ++ signal :: post) w
      = (Raise (KeyError "id"), w2)
    ∧ length log = length pre
    ∧ stdout w2 = stdout w ++ (report_line <$> log).
Proof.
  intros Hpre Hid.
  destruct (for_each_run env kibana analyst pre Hpre w) as (log & w1 & Hloop & Hrun).
  destruct (process_signal_without_id env kibana analyst signal w1 Hid)
    as (e & w2 & He & Hh & Hp & Hs).
  exists log, w1, e, w2. repeat split; try done.
  - rewrite for_each_app. erewrite bind_Ok by exact Hloop.
    simpl. by erewrite bind_Raise by exact Hp.
  - by eapply run_length.
  - rewrite Hs. by eapply run_stdout.
Qed.

(** The theorem at a sequence of three records whose second has no id. *)
Lemma missing_id_aborts_run_witness :
  ∃ log w1 e w2,
    run sample_env sample_kibana (ai_analyst "k")
      [ElasticsearchConnector.record_of_hit (hit "a")] new_world log w1
    ∧ enrich sample_env sample_kibana (ai_analyst "k") {[ "source" := PDict ∅ ]} w1
      = (Raise e, w2)
    ∧ report_failure {[ "source" := PDict ∅ ]} e w2 = (Raise (KeyError "id"), w2)
    ∧ process_signal sample_env sample_kibana (ai_analyst "k")
        {[ "source" := PDict ∅ ]} w1 = (Raise (KeyError "id"), w2)
    ∧ for_each sample_env sample_kibana (ai_analyst "k")
        ([ElasticsearchConnector.record_of_hit (hit "a")]
         ++ {[ "source" := PDict ∅ ]}
         :: [ElasticsearchConnector.record_of_hit (hit "c")]) new_world
      = (Raise (KeyError "id"), w2)
    ∧ length log = length [ElasticsearchConnector.record_of_hit (hit "a")]
    ∧ stdout w2 = stdout new_world ++ (report_line <$> log).
Proof.
  apply (missing_id_aborts_run sample_env sample_kibana (ai_analyst "k")
           [ElasticsearchConnector.record_of_hit (hit "a")]
           {[ "source" := PDict ∅ ]}
           [ElasticsearchConnector.record_of_hit (hit "c")] new_world).
  - repeat constructor. vm_compute. by eexists.
  - vm_compute. reflexivity.
Defined.

Example missing_id_output :
  let '(r, w') :=
    for_each sample_env sample_kibana (ai_analyst "k")
      [ElasticsearchConnector.record_of_hit (hit "a"); {[ "source" := PDict ∅ ]};
       ElasticsearchConnector.record_of_hit (hit "c")] new_world in
  r = Raise (KeyError "id") ∧ stdout w' = ["✓ Processed signal a"].
Proof. vm_compute. done. Qed.

(** * Further properties *)

(** ** Rule listing *)

Lemma rules_loop_trace env fuel : ∀ url page per_page all_rules w r w',
  KibanaConnector.rules_loop env fuel url page per_page all_rules w = (r, w') →
  ∃ pages,
    Forall (λ rules, per_page ≤ length rules) pages
    ∧ stdout w' = stdout w
    ∧ match r with
      | Ok rules =>
          ∃ last, length last < per_page
                  ∧ history w'
                    = history w ++ find_rules_events url per_page page (pages ++ [last])
                  ∧ rules = all_rules ++ concat (pages ++ [last])
      | Raise e =>
          history w'
          = history w ++ find_rules_events url per_page page pages
            ++ [KbnFindRules url (page + length pages) per_page (inl e)]
      | OutOfFuel =>
          history w' = history w ++ find_rules_events url per_page page pages
          ∧ length pages = fuel
      end.
Proof.
  induction fuel as [|fuel IH]; intros url page per_page all_rules w r w'; simpl.
  - intros [= <- <-]. exists []. simpl. by rewrite app_nil_r.
  - unfold KibanaConnector.find_rules. rewrite bind_call.
    destruct (kbn_find_rules env _ _ _ _) as [e|rules].
    { intros [= <- <-]. exists []. simpl. by rewrite Nat.add_0_r. }
    destruct (length rules <? per_page) eqn:Hshort.
    { intros [= <- <-]. exists []. split; [done|]. split; [done|].
      exists rules. apply Nat.ltb_lt in Hshort. simpl. by rewrite app_nil_r. }
    intros Hloop. apply IH in Hloop as (pages & Hfull & Hout & Hr).
    apply Nat.ltb_ge in Hshort.
    exists (rules :: pages). split; [by constructor|]. split; [done|].
    unfold record_event in Hr. cbn [history] in Hr.
    destruct r as [all|e|].
    + destruct Hr as (last & Hlast & Hh & ->). exists last.
      rewrite Hh, <- !app_assoc. done.
    + rewrite Hr, <- !app_assoc. simpl.
      by replace (page + 1 + length pages) with (page + S (length pages)) by lia.
    + destruct Hr as [Hh <-]. by rewrite Hh, <- !app_assoc.
Qed.

(** X1. Against any server, [get_all_detection_rules] asks for the pages 1,
    2, 3, ... of the rule list of its space, a hundred rules each. If it
    returns, the result is the concatenation of the pages received, every
    page but the last held at least a hundred rules and the last fewer. If a
    request raises, the error is propagated right after it and the rules
    received so far are dropped. Nothing is printed. *)
Theorem get_all_detection_rules_trace env this fuel w r w' :
  KibanaConnector.get_all_detection_rules env this fuel w = (r, w') →
  ∃ pages,
    Forall (λ rules, 100 ≤ length rules) pages
    ∧ stdout w' = stdout w
    ∧ match r with
      | Ok rules =>
          ∃ last, length last < 100
                  ∧ history w'
                    = history w
                      ++ find_rules_events
                           (KibanaConnector.api_endpoint this
                            +:+ "/detection_engine/rules/_find")
                           100 1 (pages ++ [last])
                  ∧ rules = concat (pages ++ [last])
      | Raise e =>
          history w'
          = history w
            ++ find_rules_events
                 (KibanaConnector.api_endpoint this +:+ "/detection_engine/rules/_find")
                 100 1 pages
            ++ [KbnFindRules
                  (KibanaConnector.api_endpoint this +:+ "/detection_engine/rules/_find")
                  (1 + length pages) 100 (inl e)]
      | OutOfFuel => length pages = fuel
      end.
Proof.
  unfold KibanaConnector.get_all_detection_rules. intros Hloop.
  apply rules_loop_trace in Hloop as (pages & Hfull & Hout & Hr).
  exists pages. split; [done|]. split; [done|].
  destruct r as [rules|e|]; [|done|by destruct Hr].
  destruct Hr as (last & Hlast & Hh & ->). by exists last.
Qed.

(** The theorem at a rule store whose third page cannot be fetched. *)
Lemma get_all_detection_rules_trace_witness :
  ∃ pages,
    Forall (λ rules, 100 ≤ length rules) pages
    ∧ stdout (snd (KibanaConnector.get_all_detection_rules
                     (with_rules_fault 3 (ExternalError "502 Bad Gateway")
                        (with_paged_rules (replicate 250 PNone) sample_env))
                     sample_kibana 5 new_world))
      = stdout new_world
    ∧ history (snd (KibanaConnector.get_all_detection_rules
                      (with_rules_fault 3 (ExternalError "502 Bad Gateway")
                         (with_paged_rules (replicate 250 PNone) sample_env))
                      sample_kibana 5 new_world))
      = history new_world
        ++ find_rules_events
             (KibanaConnector.api_endpoint sample_kibana
              +:+ "/detection_engine/rules/_find")
             100 1 pages
        ++ [KbnFindRules
              (KibanaConnector.api_endpoint sample_kibana
               +:+ "/detection_engine/rules/_find")
              (1 + length pages) 100 (inl (ExternalError "502 Bad Gateway"))].
Proof.
  apply (get_all_detection_rules_trace
           (with_rules_fault 3 (ExternalError "502 Bad Gateway")
              (with_paged_rules (replicate 250 PNone) sample_env))
           sample_kibana 5 new_world (Raise (ExternalError "502 Bad Gateway"))).
  vm_compute. reflexivity.
Defined.

Lemma rules_loop_paged env rules url per_page fuel : ∀ k all_rules w,
  paged_rules env rules → 0 < per_page →
  length (drop (k * per_page) rules) / per_page < fuel →
  KibanaConnector.rules_loop env fuel url (S k) per_page all_rules w
  = (Ok (all_rules ++ drop (k * per_page) rules),
     {| history :=
          history w
          ++ ((λ page, KbnFindRules url page per_page
                         (inr (rules_page rules per_page page)))
              <$> seq (S k) (length (drop (k * per_page) rules) / per_page + 1));
        stdout := stdout w |}).
Proof.
  intros k all_rules w Hstore Hpp. revert k all_rules w.
  induction fuel as [|fuel IH]; intros k all_rules w Hfuel; [lia|].
  simpl. unfold KibanaConnector.find_rules. rewrite bind_call, Hstore.
  assert (rules_page rules per_page (S k) = take per_page (drop (k * per_page) rules))
    as Hpage by (unfold rules_page; do 3 f_equal; lia).
  rewrite Hpage.
  set (rest := drop (k * per_page) rules) in *.
  destruct (length (take per_page rest) <? per_page) eqn:Hshort.
  - apply Nat.ltb_lt in Hshort. rewrite length_take in Hshort.
    assert (length rest < per_page) as Hlt by lia.
    rewrite take_ge by lia. rewrite Nat.div_small by done. simpl.
    unfold record_event, mret, M_ret. by rewrite Hpage, take_ge by lia.
  - apply Nat.ltb_ge in Hshort. rewrite length_take in Hshort.
    assert (per_page ≤ length rest) as Hge by lia.
    assert (drop (S k * per_page) rules = drop per_page rest) as Hdrop.
    { unfold rest. rewrite drop_drop. f_equal. lia. }
    replace (k + 1) with (S k) by lia.
    rewrite IH; [|rewrite Hdrop, length_drop].
    2: { replace (length rest) with ((length rest - per_page) + 1 * per_page) in Hfuel
           by lia.
         rewrite Nat.div_add in Hfuel by lia. lia. }
    unfold record_event. cbn [history stdout]. f_equal.
    + f_equal. rewrite <- app_assoc. f_equal. rewrite Hdrop. apply take_drop.
    + f_equal. rewrite <- app_assoc. f_equal.
      rewrite Hdrop, length_drop.
      replace (length rest) with ((length rest - per_page) + 1 * per_page) at 2 by lia.
      rewrite Nat.div_add by lia.
      replace (_ / per_page + 1 + 1) with (S ((length rest - per_page) / per_page + 1))
        by lia.
      cbn [seq fmap list_fmap]. by rewrite Hpage.
Qed.

(** X2. Against a rule store that holds N rules and serves the page asked
    for, [get_all_detection_rules] returns the N rules in the store's order
    after exactly ⌊N/100⌋ + 1 requests, for the pages 1 to ⌊N/100⌋ + 1: when
    N is a multiple of a hundred (zero included) the last request fetches an
    empty page. *)
Theorem get_all_detection_rules_complete env rules this fuel w :
  paged_rules env rules →
  length rules / 100 < fuel →
  KibanaConnector.get_all_detection_rules env this fuel w
  = (Ok rules,
     {| history :=
          history w
          ++ ((λ page, KbnFindRules
                         (KibanaConnector.api_endpoint this
                          +:+ "/detection_engine/rules/_find")
                         page 100 (inr (rules_page rules 100 page)))
              <$> seq 1 (length rules / 100 + 1));
        stdout := stdout w |}).
Proof.
  intros Hstore Hfuel. unfold KibanaConnector.get_all_detection_rules.
  rewrite (rules_loop_paged env rules _ 100 fuel 0 [] w Hstore); [done|lia|].
  by rewrite Nat.mul_0_l, drop_0.
Qed.

(** The theorem at a store of two hundred rules: three requests. *)
Lemma get_all_detection_rules_complete_witness :
  KibanaConnector.get_all_detection_rules
    (with_paged_rules (replicate 200 PNone) sample_env) sample_kibana 3 new_world
  = (Ok (replicate 200 PNone),
     {| history :=
          history new_world
          ++ ((λ page, KbnFindRules
                         (KibanaConnector.api_endpoint sample_kibana
                          +:+ "/detection_engine/rules/_find")
                         page 100 (inr (rules_page (replicate 200 PNone) 100 page)))
              <$> seq 1 (length (replicate 200 PNone : list pyval) / 100 + 1));
        stdout := stdout new_world |}).
Proof.
  apply (get_all_detection_rules_complete
           (with_paged_rules (replicate 200 PNone) sample_env)
           (replicate 200 PNone) sample_kibana 3 new_world).
  - done.
  - vm_compute. lia.
Defined.

(** X3. The listing has no bound of its own: against a server that never
    returns a short page it does not return, however many requests it is
    allowed; every request allowed is spent. *)
Theorem get_all_detection_rules_endless env this fuel w :
  endless_rules env →
  ∃ w' evs,
    KibanaConnector.get_all_detection_rules env this fuel w = (OutOfFuel, w')
    ∧ history w' = history w ++ evs
    ∧ length evs = fuel.
Proof.
  intros Hendless. unfold KibanaConnector.get_all_detection_rules.
  generalize 1 at 1. generalize (@nil pyval).
  revert w. induction fuel as [|fuel IH]; intros w all_rules page; simpl.
  - exists w, []. by rewrite app_nil_r.
  - unfold KibanaConnector.find_rules. rewrite bind_call.
    destruct (Hendless (history w)
                (KibanaConnector.api_endpoint this +:+ "/detection_engine/rules/_find")
                page 100) as (rules & -> & Hfull).
    apply Nat.ltb_ge in Hfull. rewrite Hfull.
    destruct (IH (record_event
                    (KbnFindRules
                       (KibanaConnector.api_endpoint this
                        +:+ "/detection_engine/rules/_find") page 100 (inr rules)) w)
                (all_rules ++ rules) (page + 1)) as (w' & evs & Hloop & Hh & Hlen).
    exists w', (KbnFindRules
                  (KibanaConnector.api_endpoint this
                   +:+ "/detection_engine/rules/_find") page 100 (inr rules) :: evs).
    split; [done|]. unfold record_event in Hh. cbn [history] in Hh.
    rewrite Hh, <- app_assoc. split; [done|]. simpl. by rewrite Hlen.
Qed.

(** The theorem at a server that always returns a full page. *)
Lemma get_all_detection_rules_endless_witness :
  ∃ w' evs,
    KibanaConnector.get_all_detection_rules (with_endless_rules sample_env)
      sample_kibana 4 new_world = (OutOfFuel, w')
    ∧ history w' = history new_world ++ evs
    ∧ length evs = 4.
Proof.
  apply (get_all_detection_rules_endless (with_endless_rules sample_env)
           sample_kibana 4 new_world).
  intros h url page per_page. exists (replicate per_page PNone).
  split; [reflexivity|]. by rewrite length_replicate.
Defined.

(** ** Retrieval against any server *)

Lemma hits_received_app h1 h2 :
  hits_received (h1 ++ h2) = hits_received h1 ++ hits_received h2.
Proof.
  induction h1 as [|ev h1 IH]; [done|].
  destruct ev as [? ? ? ? [?|?]|? ? [?|?]| | | | |]; simpl; rewrite ?IH, ?app_assoc; done.
Qed.

Lemma scroll_loop_trace env fuel : ∀ sid resp results w r w',
  ElasticsearchConnector.scroll_loop env fuel sid resp results w = (r, w') →
  ∃ evs,
    history w' = history w ++ evs
    ∧ Forall (λ ev, ∃ r', ev = EsScroll sid "5m" r') evs
    ∧ ∀ out, r = Ok out →
        out = results ++ (ElasticsearchConnector.record_of_hit <$> hits_received evs).
Proof.
  induction fuel as [|fuel IH]; intros sid resp results w r w'; simpl.
  - destruct (length (hits resp) =? 0); intros [= <- <-]; exists [];
      rewrite !app_nil_r; repeat split; try done. by intros out [= <-].
  - destruct (length (hits resp) =? 0).
    { intros [= <- <-]. exists []. rewrite !app_nil_r. repeat split; try done.
      by intros out [= <-]. }
    unfold ElasticsearchConnector.client_scroll. rewrite bind_call.
    destruct (es_scroll env (history w) sid "5m") as [e|resp'].
    { intros [= <- <-]. eexists [_]. repeat split; [|done].
      apply Forall_cons_2; [by eexists|constructor]. }
    intros Hloop. apply IH in Hloop as (evs & Hh & Hevs & Hout).
    unfold record_event in Hh. cbn [history] in Hh.
    eexists (_ :: evs). rewrite Hh, <- app_assoc. split; [done|].
    split; [apply Forall_cons_2; [by eexists|done]|].
    intros out Hr. rewrite (Hout out Hr). simpl.
    by rewrite fmap_app, app_assoc.
Qed.

Lemma get_signals_events env this fuel space days w r w' :
  ElasticsearchConnector.get_signals env this fuel space days w = (r, w') →
  ∃ evs,
    history w' = history w ++ evs
    ∧ stdout w' = stdout w
    ∧ retrieval_shape space days evs
    ∧ ∀ results, r = Ok results →
        results = ElasticsearchConnector.record_of_hit <$> hits_received evs.
Proof.
  unfold ElasticsearchConnector.get_signals, ElasticsearchConnector.client_search.
  rewrite bind_call. destruct (es_search env _ _ _ _ _) as [e|resp].
  { intros [= <- <-]. eexists [_]. repeat split; done. }
  unfold mbind at 1, M_bind at 1.
  destruct (ElasticsearchConnector.scroll_loop _ _ _ _ _ _) as [r1 w1] eqn:Hloop.
  pose proof Hloop as Hs. apply scroll_loop_events in Hs as (_ & _ & Hs & _).
  apply scroll_loop_trace in Hloop as (evs & Hh & Hevs & Hout).
  unfold record_event in Hh, Hs. cbn [history stdout] in Hh, Hs.
  assert (Forall (on_scroll_context (_scroll_id resp)) evs) as Hctx.
  { eapply Forall_impl; [exact Hevs|]. by intros ev [r' ->]. }
  destruct r1 as [results|e|].
  - unfold ElasticsearchConnector.client_clear_scroll. rewrite bind_call.
    destruct (es_clear_scroll env _ _) as [e|[]]; intros [= <- <-];
      unfold record_event; cbn [history stdout]; rewrite Hh, <- !app_assoc;
      (eexists (_ :: evs ++ [_]); split; [done|]); (split; [done|]);
      (split; [repeat split; apply Forall_app; split; [done|];
               by apply Forall_cons_2|]); [done|].
    intros out [= <-]. rewrite (Hout results eq_refl). simpl.
    by rewrite hits_received_app, fmap_app, app_nil_r.
  - intros [= <- <-]. eexists (_ :: evs). rewrite Hh, <- app_assoc.
    repeat split; done.
  - intros [= <- <-]. eexists (_ :: evs). rewrite Hh, <- app_assoc.
    repeat split; done.
Qed.

Lemma scroll_loop_exact env fuel : ∀ sid resp results w r w',
  ElasticsearchConnector.scroll_loop env fuel sid resp results w = (r, w') →
  ∃ pages,
    match r with
    | Ok out =>
        (∃ front last, resp :: pages = front ++ [last]
                       ∧ Forall (λ page, hits page ≠ []) front
                       ∧ hits last = [])
        ∧ history w' = history w ++ scroll_calls sid pages
        ∧ out = results
                ++ (ElasticsearchConnector.record_of_hit <$> concat (hits <$> pages))
    | Raise e =>
        Forall (λ page, hits page ≠ []) (resp :: pages)
        ∧ history w' = history w ++ scroll_calls sid pages ++ [EsScroll sid "5m" (inl e)]
    | OutOfFuel =>
        Forall (λ page, hits page ≠ []) (resp :: pages)
        ∧ length pages = fuel
        ∧ history w' = history w ++ scroll_calls sid pages
    end.
Proof.
  assert (∀ resp : SearchResponse, (length (hits resp) =? 0) = true → hits resp = [])
    as Hempty.
  { intros resp Hlen. by apply Nat.eqb_eq, nil_length_inv in Hlen. }
  assert (∀ resp : SearchResponse, (length (hits resp) =? 0) = false → hits resp ≠ [])
    as Hfull.
  { intros resp Hlen Hnil. rewrite Hnil in Hlen. done. }
  induction fuel as [|fuel IH]; intros sid resp results w r w'; simpl.
  - destruct (length (hits resp) =? 0) eqn:Hlen; intros [= <- <-]; exists [].
    + simpl. rewrite !app_nil_r. split; [|done].
      exists [], resp. auto.
    + simpl. rewrite app_nil_r. split; [repeat constructor; auto|]. by split.
  - destruct (length (hits resp) =? 0) eqn:Hlen.
    { intros [= <- <-]. exists []. simpl. rewrite !app_nil_r. split; [|done].
      exists [], resp. auto. }
    unfold ElasticsearchConnector.client_scroll. rewrite bind_call.
    destruct (es_scroll env (history w) sid "5m") as [e|resp'].
    { intros [= <- <-]. exists []. simpl. split; [repeat constructor; auto|done]. }
    intros Hloop. apply IH in Hloop as (pages & Hr). exists (resp' :: pages).
    unfold record_event in Hr. cbn [history] in Hr.
    destruct r as [out|e|].
    + destruct Hr as ((front & last & Hsplit & Hfront & Hlast) & Hh & ->).
      split; [|split].
      * exists (resp :: front), last. rewrite Hsplit. split; [done|]. split; [|done].
        constructor; auto.
      * rewrite Hh, <- app_assoc. done.
      * simpl. by rewrite fmap_app, app_assoc.
    + destruct Hr as (Hall & Hh). split; [constructor; auto|].
      rewrite Hh, <- app_assoc. done.
    + destruct Hr as (Hall & Hlen' & Hh). split; [constructor; auto|].
      split; [simpl; by rewrite Hlen'|]. rewrite Hh, <- app_assoc. done.
Qed.

(** X4. For a window in range and against any server, one call of
    [get_signals] is a search on the alert index of the space, with
    keep-alive "5m" and page size 1000, followed by scroll calls on the
    scroll id the search returned (whatever ids the scroll responses carry),
    one after each non-empty page received, and, once a page comes back
    empty, by exactly one release of that scroll id. It then returns the hits
    of all the pages received, in the order received, each as a record of its
    [_id] and [_source]. A failing search, scroll or release ends the call
    with its error and nothing follows it; after a failing scroll there is no
    release. Nothing is printed. *)
Theorem get_signals_trace env this fuel space days w r w' :
  window_in_range days →
  ElasticsearchConnector.get_signals env this fuel space days w = (r, w') →
  ∃ evs,
    history w' = history w ++ evs
    ∧ stdout w' = stdout w
    ∧ retrieval fuel space days r evs.
Proof.
  intros _ Hget. pose proof Hget as Hs.
  apply get_signals_events in Hs as (evs0 & _ & Hs & _).
  revert Hget.
  unfold ElasticsearchConnector.get_signals, ElasticsearchConnector.client_search.
  rewrite bind_call. destruct (es_search env _ _ _ _ _) as [e|resp].
  { intros [= <- <-].
    exists [EsSearch (alert_index space) days "5m" 1000 (inl e)].
    split; [reflexivity|]. split; [exact Hs|]. apply search_failed. }
  unfold mbind at 1, M_bind at 1.
  destruct (ElasticsearchConnector.scroll_loop _ _ _ _ _ _) as [r1 w1] eqn:Hloop.
  apply scroll_loop_exact in Hloop as (pages & Hr).
  unfold record_event in Hr. cbn [history] in Hr.
  destruct r1 as [results|e|].
  - destruct Hr as ((front & last & Hsplit & Hfront & Hlast) & Hh & ->).
    unfold ElasticsearchConnector.client_clear_scroll. rewrite bind_call.
    destruct (es_clear_scroll env _ _) as [e|[]]; intros [= <- <-];
      unfold record_event; cbn [history].
    + exists (EsSearch (alert_index space) days "5m" 1000 (inr resp)
              :: scroll_calls (_scroll_id resp) pages
              ++ [EsClearScroll (_scroll_id resp) (inl e)]).
      split; [rewrite Hh, <- !app_assoc; reflexivity|]. split; [exact Hs|].
      exact (release_failed fuel space days resp pages front last e Hsplit Hfront Hlast).
    + exists (EsSearch (alert_index space) days "5m" 1000 (inr resp)
              :: scroll_calls (_scroll_id resp) pages
              ++ [EsClearScroll (_scroll_id resp) (inr ())]).
      split; [rewrite Hh, <- !app_assoc; reflexivity|]. split; [exact Hs|].
      rewrite <- fmap_app.
      exact (released fuel space days resp pages front last Hsplit Hfront Hlast).
  - destruct Hr as (Hall & Hh). intros [= <- <-].
    exists (EsSearch (alert_index space) days "5m" 1000 (inr resp)
            :: scroll_calls (_scroll_id resp) pages
            ++ [EsScroll (_scroll_id resp) "5m" (inl e)]).
    split; [rewrite Hh, <- !app_assoc; reflexivity|]. split; [exact Hs|].
    exact (scroll_failed fuel space days resp pages e Hall).
  - destruct Hr as (Hall & Hlen & Hh). intros [= <- <-].
    exists (EsSearch (alert_index space) days "5m" 1000 (inr resp)
            :: scroll_calls (_scroll_id resp) pages).
    split; [rewrite Hh, <- !app_assoc; reflexivity|]. split; [exact Hs|].
    exact (scroll_unfinished fuel space days resp pages Hall Hlen).
Qed.

(** The theorem at a store whose scroll responses carry fresh scroll ids. *)
Lemma get_signals_trace_witness :
  ∃ evs,
    history (snd (ElasticsearchConnector.get_signals
                    (with_rotating_scroll_id sample_env) sample_elastic 3 "soc" 30
                    new_world))
    = history new_world ++ evs
    ∧ stdout (snd (ElasticsearchConnector.get_signals
                     (with_rotating_scroll_id sample_env) sample_elastic 3 "soc" 30
                     new_world))
      = stdout new_world
    ∧ retrieval 3 "soc" 30
        (fst (ElasticsearchConnector.get_signals
                (with_rotating_scroll_id sample_env) sample_elastic 3 "soc" 30
                new_world))
        evs.
Proof.
  apply (get_signals_trace (with_rotating_scroll_id sample_env) sample_elastic 3
           "soc" 30 new_world).
  - unfold window_in_range. lia.
  - vm_compute. reflexivity.
Defined.

Example rotating_scroll_id_ignored :
  history (snd (ElasticsearchConnector.get_signals
                  (with_rotating_scroll_id sample_env) sample_elastic 3 "soc" 30
                  new_world))
  = [EsSearch ".internal.alerts-security.alerts-soc-*" 30 "5m" 1000
       (inr {| _scroll_id := "scroll-1"; hits := [hit "a"; hit "b"] |});
     EsScroll "scroll-1" "5m" (inr {| _scroll_id := "scroll-1'"; hits := [hit "c"] |});
     EsScroll "scroll-1" "5m" (inr {| _scroll_id := "scroll-1'"; hits := [] |});
     EsClearScroll "scroll-1" (inr ())].
Proof. vm_compute. reflexivity. Qed.

(** ** Connector URLs *)

Lemma rstrip_slash_slashes_only n : KibanaConnector.rstrip_slash (slashes n) = "".
Proof. induction n as [|n IH]; [done|]. simpl. by rewrite IH. Qed.

Lemma rstrip_slash_trailing s n :
  KibanaConnector.rstrip_slash (s +:+ slashes n) = KibanaConnector.rstrip_slash s.
Proof.
  induction s as [|c s IH]; simpl.
  - apply rstrip_slash_slashes_only.
  - by rewrite IH.
Qed.

Lemma rstrip_slash_no_trailing s :
  ends_with_slash (KibanaConnector.rstrip_slash s) = false.
Proof.
  induction s as [|c s IH]; [done|]. simpl.
  destruct (KibanaConnector.rstrip_slash s) as [|c' t] eqn:Hs.
  - destruct (Ascii.eqb c "/") eqn:Hc; simpl; [done|]. by rewrite Hc.
  - exact IH.
Qed.

Lemma rstrip_slash_decompose s :
  ∃ n, s = KibanaConnector.rstrip_slash s +:+ slashes n.
Proof.
  induction s as [|c s [n IH]]; [by exists 0|]. simpl.
  destruct (KibanaConnector.rstrip_slash s) as [|c' t] eqn:Hs.
  - change (s = slashes n) in IH. destruct (Ascii.eqb c "/") eqn:Hc.
    + apply Ascii.eqb_eq in Hc as ->. exists (S n). by rewrite IH.
    + exists n. by rewrite IH.
  - exists n. change (s = String c' (t +:+ slashes n)) in IH. by rewrite IH at 1.
Qed.

(** X5. Trailing slashes of the Kibana host do not matter: a host with any
    number of slashes appended gives the same connector, or the same error.
    The base URL kept is the host without its trailing slashes: it never
    ends in a slash, and nothing else is removed. *)
Theorem kibana_host_trailing_slashes host n space api_key username password verify_ssl w :
  KibanaConnector.__init__ (host +:+ slashes n) space api_key username password
    verify_ssl w
  = KibanaConnector.__init__ host space api_key username password verify_ssl w
  ∧ ends_with_slash (KibanaConnector.rstrip_slash host) = false
  ∧ ∃ m, host = KibanaConnector.rstrip_slash host +:+ slashes m.
Proof.
  split; [|split; [apply rstrip_slash_no_trailing|apply rstrip_slash_decompose]].
  unfold KibanaConnector.__init__. by rewrite rstrip_slash_trailing.
Qed.

Lemma find_rules_events_url url per_page pages : ∀ page,
  Forall (λ ev, event_url ev = Some url) (find_rules_events url per_page page pages).
Proof.
  induction pages as [|rules pages IH]; intros page; simpl; [constructor|].
  apply Forall_cons_2; [done|apply IH].
Qed.

Lemma kibana_init_endpoint host space api_key username password verify_ssl w kb w' :
  KibanaConnector.__init__ host space api_key username password verify_ssl w
  = (Ok kb, w') →
  KibanaConnector.api_endpoint kb = space_endpoint host space.
Proof.
  unfold KibanaConnector.__init__, space_endpoint, mbind, M_bind, mret, M_ret, raise.
  destruct (truthy api_key); [|destruct (truthy username && truthy password)];
    [| |done]; intros [= <- <-]; simpl; by destruct (String.eqb space "default").
Qed.

(** X6. Every request of a connector built for a host and a space goes to
    the endpoint of that space: [<host>/api] for the space "default" and
    [<host>/s/<space>/api] for any other, the host taken without trailing
    slashes. A note is sent to [/note] under it, with the event id, the text
    and the timeline id given, in one request; the rule listing sends all
    its requests to [/detection_engine/rules/_find] under it. *)
Theorem kibana_requests_use_space_endpoint env host space api_key username password
    verify_ssl w0 kb w0' event_id note timeline_id w fuel r w' :
  KibanaConnector.__init__ host space api_key username password verify_ssl w0
  = (Ok kb, w0') →
  KibanaConnector.get_all_detection_rules env kb fuel w = (r, w') →
  history (snd (KibanaConnector.add_note env kb event_id note timeline_id w))
  = history w
    ++ [KbnAddNote (space_endpoint host space +:+ "/note") timeline_id event_id note
          (kbn_add_note env (history w) (space_endpoint host space +:+ "/note")
             timeline_id event_id note)]
  ∧ ∃ evs,
      history w' = history w ++ evs
      ∧ Forall (λ ev, event_url ev
                      = Some (space_endpoint host space
                              +:+ "/detection_engine/rules/_find")) evs.
Proof.
  intros Hinit Hrules. apply kibana_init_endpoint in Hinit. split.
  - unfold KibanaConnector.add_note, call. rewrite Hinit.
    by destruct (kbn_add_note env _ _ _ _ _).
  - unfold KibanaConnector.get_all_detection_rules in Hrules. rewrite Hinit in Hrules.
    apply rules_loop_trace in Hrules as (pages & _ & _ & Hr).
    destruct r as [rules|e|].
    + destruct Hr as (last & _ & Hh & _). eexists. split; [exact Hh|].
      apply find_rules_events_url.
    + eexists. split; [exact Hr|]. apply Forall_app. split.
      * apply find_rules_events_url.
      * by apply Forall_cons_2.
    + destruct Hr as [Hh _]. eexists. split; [exact Hh|].
      apply find_rules_events_url.
Qed.

(** The theorem at the connector of the script, for a host with a trailing
    slash. *)
Lemma kibana_requests_use_space_endpoint_witness :
  history (snd (KibanaConnector.add_note sample_env sample_kibana (PStr "a") "note" ""
                  new_world))
  = history new_world
    ++ [KbnAddNote (space_endpoint "https://kibana.example.com/" "soc" +:+ "/note") ""
          (PStr "a") "note"
          (kbn_add_note sample_env (history new_world)
             (space_endpoint "https://kibana.example.com/" "soc" +:+ "/note") ""
             (PStr "a") "note")]
  ∧ ∃ evs,
      history (snd (KibanaConnector.get_all_detection_rules sample_env sample_kibana 3
                      new_world))
      = history new_world ++ evs
      ∧ Forall (λ ev, event_url ev
                      = Some (space_endpoint "https://kibana.example.com/" "soc"
                              +:+ "/detection_engine/rules/_find")) evs.
Proof.
  apply (kibana_requests_use_space_endpoint sample_env "https://kibana.example.com/"
           "soc" None (Some "elastic") (Some "changeme") false new_world sample_kibana
           new_world (PStr "a") "note" "" new_world 3
           (fst (KibanaConnector.get_all_detection_rules sample_env sample_kibana 3
                   new_world))).
  - vm_compute. reflexivity.
  - vm_compute. reflexivity.
Defined.

(** ** The calls of one analysis *)

Lemma well_shaped_source signal source :
  well_shaped signal = true → signal !! "source" = Some source →
  ∃ d, source = PDict d.
Proof.
  unfold well_shaped, container_paths, source_of. cbn [forallb dig].
  intros Hws Hsrc. rewrite Hsrc in Hws. apply andb_true_iff in Hws as [Hws _].
  destruct source; try done. by eexists.
Qed.

Lemma analyze_signal_answered `{Builtins} env this signal id source response w :
  well_shaped signal = true →
  signal !! "id" = Some id →
  signal !! "source" = Some source →
  log_never_fails env →
  chat_create env (history w ++ prompt_log_events this signal)
    (AISecurityAnalyst.model this) (chat_messages signal)
    (AISecurityAnalyst.temperature this) = inr response →
  AISecurityAnalyst.analyze_signal env this signal w
  = (match choices response with
     | c :: _ =>
         Ok {| AISecurityAnalyst.signal_id := id;
               AISecurityAnalyst.analysis := c;
               AISecurityAnalyst.model_used := AISecurityAnalyst.model this;
               AISecurityAnalyst.result_timestamp :=
                 default PNone (dig source ["@timestamp"]) |}
     | [] => Raise (IndexError "list index out of range")
     end,
     {| history := history w ++ prompt_log_events this signal
                   ++ response_events this signal response;
        stdout := stdout w |}).
Proof.
  intros Hws Hid Hsrc Hlog Hchat.
  destruct (well_shaped_source signal source Hws Hsrc) as [d ->].
  unfold AISecurityAnalyst.analyze_signal, AISecurityAnalyst._create_signal_prompt.
  erewrite bind_Ok by (erewrite bind_Ok by (by apply extract_well_shaped); reflexivity).
  unfold AISecurityAnalyst._log_debug, AISecurityAnalyst.chat_completions_create.
  rewrite bind_call, Hlog, bind_call, Hlog, bind_call.
  unfold record_event at 1 2 3. cbn [history stdout]. rewrite <- app_assoc.
  change ([?a] ++ [?b]) with [a; b].
  unfold prompt_log_events, chat_messages in Hchat. rewrite Hchat.
  rewrite bind_call, Hlog, bind_py_getitem, Hid.
  unfold mbind at 1, M_bind at 1, AISecurityAnalyst.first_choice_content.
  destruct (choices response) as [|c cs].
  - unfold raise, record_event. cbn [history stdout]. f_equal. f_equal.
    unfold prompt_log_events, response_events, chat_messages.
    by rewrite <- !app_assoc.
  - unfold mret at 1, M_ret at 1.
    rewrite bind_py_getitem, Hsrc.
    unfold mbind, M_bind, py_get, mret, M_ret, record_event. cbn [history stdout dig].
    f_equal.
    + do 2 f_equal. by destruct (d !! "@timestamp").
    + f_equal. unfold prompt_log_events, response_events, chat_messages.
      by rewrite <- !app_assoc.
Qed.

(** X7. When a well-shaped record that carries an id and a source is
    analysed, the log can be written and the service answers with at least
    one choice, [analyze_signal] makes exactly four calls, in this order: the
    log entry of the input record, the log entry of the prompt, the analysis
    call, the log entry of the response. Its result carries the record's id,
    the content of the first choice, the analyst's model, and the source's
    ["@timestamp"], or [None] when the source has none. *)
Theorem analyze_signal_success `{Builtins} env this signal id source response c cs w :
  well_shaped signal = true →
  signal !! "id" = Some id →
  signal !! "source" = Some source →
  log_never_fails env →
  chat_create env (history w ++ prompt_log_events this signal)
    (AISecurityAnalyst.model this) (chat_messages signal)
    (AISecurityAnalyst.temperature this) = inr response →
  choices response = c :: cs →
  AISecurityAnalyst.analyze_signal env this signal w
  = (Ok {| AISecurityAnalyst.signal_id := id;
           AISecurityAnalyst.analysis := c;
           AISecurityAnalyst.model_used := AISecurityAnalyst.model this;
           AISecurityAnalyst.result_timestamp :=
             default PNone (dig source ["@timestamp"]) |},
     {| history := history w ++ prompt_log_events this signal
                   ++ response_events this signal response;
        stdout := stdout w |}).
Proof.
  intros Hws Hid Hsrc Hlog Hchat Hchoices.
  rewrite (analyze_signal_answered env this signal id source response w) by done.
  by rewrite Hchoices.
Qed.

(** The theorem at a record with a timestamp, the sample collaborators
    answering. *)
Lemma analyze_signal_success_witness :
  AISecurityAnalyst.analyze_signal quiet_env (ai_analyst "k")
    {[ "id" := PStr "a1";
       "source" := PDict {[ "@timestamp" := PStr "2024-05-01T10:00:00Z" ]} ]} new_world
  = (Ok {| AISecurityAnalyst.signal_id := PStr "a1";
           AISecurityAnalyst.analysis := PStr "low risk";
           AISecurityAnalyst.model_used := AISecurityAnalyst.model (ai_analyst "k");
           AISecurityAnalyst.result_timestamp :=
             default PNone
               (dig (PDict {[ "@timestamp" := PStr "2024-05-01T10:00:00Z" ]})
                  ["@timestamp"]) |},
     {| history :=
          history new_world
          ++ prompt_log_events (ai_analyst "k")
               {[ "id" := PStr "a1";
                  "source" := PDict {[ "@timestamp" := PStr "2024-05-01T10:00:00Z" ]} ]}
          ++ response_events (ai_analyst "k")
               {[ "id" := PStr "a1";
                  "source" := PDict {[ "@timestamp" := PStr "2024-05-01T10:00:00Z" ]} ]}
               {| choices := [PStr "low risk"]; model_dump := PDict ∅ |};
        stdout := stdout new_world |}).
Proof.
  apply (analyze_signal_success quiet_env (ai_analyst "k") _ (PStr "a1")
           (PDict {[ "@timestamp" := PStr "2024-05-01T10:00:00Z" ]})
           {| choices := [PStr "low risk"]; model_dump := PDict ∅ |}
           (PStr "low risk") [] new_world).
  - vm_compute. reflexivity.
  - vm_compute. reflexivity.
  - vm_compute. reflexivity.
  - done.
  - reflexivity.
  - reflexivity.
Defined.

(** X8. The debug log is on the path of the analysis: when the log entry of
    the input record cannot be written, a well-shaped record is neither
    analysed nor annotated. The only call made for it is the failed write,
    and the record is reported as failed with the error of the write. *)
Theorem log_failure_blocks_analysis `{Builtins} env kibana analyst signal id e w :
  well_shaped signal = true →
  signal !! "id" = Some id →
  log_append env (history w) (AISecurityAnalyst.log_file analyst) "Input Signal:"
    (PDict signal) = inl e →
  process_signal env kibana analyst signal w
  = (Ok (),
     {| history :=
          history w
          ++ [LogAppend (AISecurityAnalyst.log_file analyst) "Input Signal:"
                (PDict signal) (inl e)];
        stdout := stdout w ++ [failure_line id e] |}).
Proof.
  intros Hws Hid Hlog. unfold process_signal, try_except, enrich.
  erewrite bind_Raise; last first.
  { unfold AISecurityAnalyst.analyze_signal, AISecurityAnalyst._create_signal_prompt.
    erewrite bind_Ok by (erewrite bind_Ok by (by apply extract_well_shaped); reflexivity).
    unfold AISecurityAnalyst._log_debug. rewrite bind_call, Hlog. reflexivity. }
  unfold report_failure. by rewrite bind_py_getitem, Hid.
Qed.

(** The theorem at the first sample record, with a log file that cannot be
    written. *)
Lemma log_failure_blocks_analysis_witness :
  process_signal (with_log_fault (ExternalError "Permission denied") quiet_env)
    sample_kibana (ai_analyst "k") (ElasticsearchConnector.record_of_hit (hit "a"))
    new_world
  = (Ok (),
     {| history :=
          history new_world
          ++ [LogAppend (AISecurityAnalyst.log_file (ai_analyst "k")) "Input Signal:"
                (PDict (ElasticsearchConnector.record_of_hit (hit "a")))
                (inl (ExternalError "Permission denied"))];
        stdout := stdout new_world
                  ++ [failure_line (PStr "a") (ExternalError "Permission denied")] |}).
Proof.
  apply (log_failure_blocks_analysis
           (with_log_fault (ExternalError "Permission denied") quiet_env)
           sample_kibana (ai_analyst "k")
           (ElasticsearchConnector.record_of_hit (hit "a")) (PStr "a")
           (ExternalError "Permission denied") new_world).
  - vm_compute. reflexivity.
  - vm_compute. reflexivity.
  - reflexivity.
Defined.

(** X9. An answer of the analysis service without any choice is an error of
    the record: the call has been made and its response logged, the lookup
    of the first choice raises [IndexError], no note is written, and the
    record is reported as failed. *)
Theorem empty_response_reported `{Builtins} env kibana analyst signal id source
    response w :
  well_shaped signal = true →
  signal !! "id" = Some id →
  signal !! "source" = Some source →
  log_never_fails env →
  chat_create env (history w ++ prompt_log_events analyst signal)
    (AISecurityAnalyst.model analyst) (chat_messages signal)
    (AISecurityAnalyst.temperature analyst) = inr response →
  choices response = [] →
  process_signal env kibana analyst signal w
  = (Ok (),
     {| history := history w ++ prompt_log_events analyst signal
                   ++ response_events analyst signal response;
        stdout := stdout w
                  ++ [failure_line id (IndexError "list index out of range")] |}).
Proof.
  intros Hws Hid Hsrc Hlog Hchat Hchoices. unfold process_signal, try_except, enrich.
  erewrite bind_Raise; last first.
  { rewrite (analyze_signal_answered env analyst signal id source response w) by done.
    by rewrite Hchoices. }
  unfold report_failure. by rewrite bind_py_getitem, Hid.
Qed.

(** The theorem at the first sample record, with a service that answers
    without choices. *)
Lemma empty_response_reported_witness :
  process_signal (with_no_choices quiet_env) sample_kibana (ai_analyst "k")
    (ElasticsearchConnector.record_of_hit (hit "a")) new_world
  = (Ok (),
     {| history :=
          history new_world
          ++ prompt_log_events (ai_analyst "k")
               (ElasticsearchConnector.record_of_hit (hit "a"))
          ++ response_events (ai_analyst "k")
               (ElasticsearchConnector.record_of_hit (hit "a"))
               {| choices := []; model_dump := PDict ∅ |};
        stdout := stdout new_world
                  ++ [failure_line (PStr "a") (IndexError "list index out of range")] |}).
Proof.
  apply (empty_response_reported (with_no_choices quiet_env) sample_kibana
           (ai_analyst "k") (ElasticsearchConnector.record_of_hit (hit "a")) (PStr "a")
           (PDict ∅) {| choices := []; model_dump := PDict ∅ |} new_world).
  - vm_compute. reflexivity.
  - vm_compute. reflexivity.
  - vm_compute. reflexivity.
  - done.
  - reflexivity.
  - reflexivity.
Defined.



(** ** Runs without failures, and runs that abort *)

Lemma enrich_succeeds `{Builtins} env kibana analyst hit w :
  well_shaped (ElasticsearchConnector.record_of_hit hit) = true →
  log_never_fails env → chat_always_answers env → notes_always_written env →
  ∃ w1 evs,
    enrich env kibana analyst (ElasticsearchConnector.record_of_hit hit) w = (Ok (), w1)
    ∧ stdout w1 = stdout w ++ [success_line (PStr (_id hit))]
    ∧ history w1 = history w ++ evs
    ∧ note_ids evs = [PStr (_id hit)].
Proof.
  intros Hws Hlog Hchat Hnotes.
  set (signal := ElasticsearchConnector.record_of_hit hit) in *.
  pose proof (record_of_hit_id hit) as Hid. fold signal in Hid.
  destruct (Hchat (history w ++ prompt_log_events analyst signal)
              (AISecurityAnalyst.model analyst) (chat_messages signal)
              (AISecurityAnalyst.temperature analyst))
    as (response & c & cs & Hresp & Hchoices).
  pose proof (analyze_signal_answered env analyst signal (PStr (_id hit)) (_source hit)
                response w Hws Hid (record_of_hit_source hit) Hlog Hresp) as Ha.
  rewrite Hchoices in Ha.
  destruct (enrich env kibana analyst signal w) as [r w1] eqn:He.
  pose proof He as Hspec. apply enrich_spec in Hspec as (evs & Hh & _ & _ & Hr).
  unfold enrich in He. erewrite bind_Ok in He by exact Ha.
  rewrite bind_py_getitem, Hid in He. cbv zeta in He.
  rewrite bind_py_getitem, Hid in He. unfold KibanaConnector.add_note in He.
  rewrite bind_call in He.
  match type of He with
  | context [kbn_add_note env ?h ?url ?t ?i ?n] =>
      destruct (Hnotes h url t i n) as [v Hv]; rewrite Hv in He
  end.
  rewrite bind_py_getitem, Hid in He. unfold print in He.
  injection He as Hr1 _. subst r.
  destruct Hr as (id' & Hid' & Hs & Hn & _).
  assert (id' = PStr (_id hit)) as -> by congruence.
  by exists w1, evs.
Qed.

(** X13. When every record fetched is well-shaped and none of the
    collaborators fails (the log can be written, the service answers with a
    choice, the note is accepted), the loop annotates every alert: it prints
    the success line of each record, in order, and writes one note per
    record, keyed by the record's id, in the same order. *)
Theorem all_alerts_annotated `{Builtins} env kibana analyst hits w :
  Forall (λ hit, well_shaped (ElasticsearchConnector.record_of_hit hit) = true) hits →
  log_never_fails env → chat_always_answers env → notes_always_written env →
  ∃ w' evs,
    for_each env kibana analyst (ElasticsearchConnector.record_of_hit <$> hits) w
    = (Ok (), w')
    ∧ stdout w' = stdout w ++ ((λ hit, success_line (PStr (_id hit))) <$> hits)
    ∧ history w' = history w ++ evs
    ∧ note_ids evs = (λ hit, PStr (_id hit)) <$> hits.
Proof.
  intros Hws Hlog Hchat Hnotes. revert w.
  induction Hws as [|hit hits Hhit _ IH]; intros w.
  - exists w, []. by rewrite !app_nil_r.
  - destruct (enrich_succeeds env kibana analyst hit w Hhit Hlog Hchat Hnotes)
      as (w1 & evs1 & He & Hs1 & Hh1 & Hn1).
    destruct (IH w1) as (w' & evs & Hrest & Hs & Hh & Hn).
    exists w', (evs1 ++ evs). cbn [fmap list_fmap for_each].
    erewrite bind_Ok; last first.
    { unfold process_signal, try_except. by rewrite He. }
    split; [exact Hrest|]. rewrite Hs, Hs1, Hh, Hh1, note_ids_app, Hn1, Hn.
    by rewrite <- !app_assoc.
Qed.

(** The theorem at the three sample records, the collaborators answering. *)
Lemma all_alerts_annotated_witness :
  ∃ w' evs,
    for_each quiet_env sample_kibana (ai_analyst "k")
      (ElasticsearchConnector.record_of_hit <$> sample_docs) new_world
    = (Ok (), w')
    ∧ stdout w'
      = stdout new_world ++ ((λ hit, success_line (PStr (_id hit))) <$> sample_docs)
    ∧ history w' = history new_world ++ evs
    ∧ note_ids evs = (λ hit, PStr (_id hit)) <$> sample_docs.
Proof.
  apply (all_alerts_annotated quiet_env sample_kibana (ai_analyst "k") sample_docs
           new_world).
  - repeat constructor.
  - done.
  - intros h model messages temperature. by eexists _, _, _.
  - intros h url timeline_id event_id note. by eexists.
Defined.

Lemma find_rules_events_only url per_page pages : ∀ page,
  Forall (λ ev, is_find_rules ev = true) (find_rules_events url per_page page pages).
Proof.
  induction pages as [|rules pages IH]; intros page; simpl; [constructor|].
  apply Forall_cons_2; [done|apply IH].
Qed.

(** X11. A failure of the rule listing aborts the run before anything else
    happens: [main] propagates the error, nothing is printed, and the only
    calls made are the listing requests up to the one that failed; no alert
    is retrieved, analysed or annotated. *)
Theorem listing_failure_aborts_run `{Builtins} env kibana elastic analyst fuel w e w1 :
  KibanaConnector.get_all_detection_rules env kibana fuel w = (Raise e, w1) →
  main env kibana elastic analyst fuel w = (Raise e, w1)
  ∧ stdout w1 = stdout w
  ∧ ∃ evs, history w1 = history w ++ evs
           ∧ Forall (λ ev, is_find_rules ev = true) evs.
Proof.
  intros Hrules. split; [unfold main; by erewrite bind_Raise by exact Hrules|].
  unfold KibanaConnector.get_all_detection_rules in Hrules.
  apply rules_loop_trace in Hrules as (pages & _ & Hs & Hh).
  split; [done|]. eexists. split; [exact Hh|].
  apply Forall_app. split; [apply find_rules_events_only|by apply Forall_cons_2].
Qed.

(** The theorem at a run whose first listing request fails. *)
Lemma listing_failure_aborts_run_witness :
  main (with_rules_fault 1 (ExternalError "401 Unauthorized") sample_env) sample_kibana
    sample_elastic (ai_analyst "k") 3 new_world
  = (Raise (ExternalError "401 Unauthorized"),
     snd (KibanaConnector.get_all_detection_rules
            (with_rules_fault 1 (ExternalError "401 Unauthorized") sample_env)
            sample_kibana 3 new_world))
  ∧ stdout (snd (KibanaConnector.get_all_detection_rules
                   (with_rules_fault 1 (ExternalError "401 Unauthorized") sample_env)
                   sample_kibana 3 new_world))
    = stdout new_world
  ∧ ∃ evs,
      history (snd (KibanaConnector.get_all_detection_rules
                      (with_rules_fault 1 (ExternalError "401 Unauthorized") sample_env)
                      sample_kibana 3 new_world))
      = history new_world ++ evs
      ∧ Forall (λ ev, is_find_rules ev = true) evs.
Proof.
  apply (listing_failure_aborts_run
           (with_rules_fault 1 (ExternalError "401 Unauthorized") sample_env)
           sample_kibana sample_elastic (ai_analyst "k") 3 new_world).
  vm_compute. reflexivity.
Defined.

(** X12. A failure of the alert retrieval aborts the run after the count of
    rules has been printed: [main] propagates the error, prints no count of
    alerts, and after the listing makes only the calls of the retrieval; no
    alert is analysed or annotated. *)
Theorem retrieval_failure_aborts_run `{Builtins} env kibana elastic analyst fuel w
    rules w1 e w2 :
  KibanaConnector.get_all_detection_rules env kibana fuel w = (Ok rules, w1) →
  ElasticsearchConnector.get_signals env elastic fuel "soc" 30
    (printed ("Found " +:+ pretty (length rules) +:+ " rules") w1) = (Raise e, w2) →
  main env kibana elastic analyst fuel w = (Raise e, w2)
  ∧ stdout w2 = stdout w ++ ["Found " +:+ pretty (length rules) +:+ " rules"]
  ∧ ∃ evs, history w2 = history w1 ++ evs ∧ retrieval_shape "soc" 30 evs.
Proof.
  intros Hrules Hfetch. split.
  { unfold main. erewrite bind_Ok by exact Hrules.
    unfold mbind at 1, M_bind at 1, print at 1.
    by erewrite bind_Raise by exact Hfetch. }
  apply rules_loop_stdout in Hrules.
  apply get_signals_events in Hfetch as (evs & Hh & Hs & Hshape & _).
  unfold printed in *. cbn [history stdout] in *.
  split; [by rewrite Hs, Hrules|]. by exists evs.
Qed.

(** The theorem at a run whose search fails. *)
Lemma retrieval_failure_aborts_run_witness :
  main (with_search_fault (ExternalError "ConnectionError") sample_env) sample_kibana
    sample_elastic (ai_analyst "k") 3 new_world
  = (Raise (ExternalError "ConnectionError"),
     snd (ElasticsearchConnector.get_signals
            (with_search_fault (ExternalError "ConnectionError") sample_env)
            sample_elastic 3 "soc" 30
            (printed ("Found " +:+ pretty (length (replicate 7 (PDict ∅))) +:+ " rules")
               (snd (KibanaConnector.get_all_detection_rules
                       (with_search_fault (ExternalError "ConnectionError") sample_env)
                       sample_kibana 3 new_world)))))
  ∧ stdout
      (snd (ElasticsearchConnector.get_signals
              (with_search_fault (ExternalError "ConnectionError") sample_env)
              sample_elastic 3 "soc" 30
              (printed
                 ("Found " +:+ pretty (length (replicate 7 (PDict ∅))) +:+ " rules")
                 (snd (KibanaConnector.get_all_detection_rules
                         (with_search_fault (ExternalError "ConnectionError") sample_env)
                         sample_kibana 3 new_world)))))
    = stdout new_world
      ++ ["Found " +:+ pretty (length (replicate 7 (PDict ∅))) +:+ " rules"]
  ∧ ∃ evs,
      history
        (snd (ElasticsearchConnector.get_signals
                (with_search_fault (ExternalError "ConnectionError") sample_env)
                sample_elastic 3 "soc" 30
                (printed
                   ("Found " +:+ pretty (length (replicate 7 (PDict ∅))) +:+ " rules")
                   (snd (KibanaConnector.get_all_detection_rules
                           (with_search_fault (ExternalError "ConnectionError")
                              sample_env)
                           sample_kibana 3 new_world)))))
      = history
          (snd (KibanaConnector.get_all_detection_rules
                  (with_search_fault (ExternalError "ConnectionError") sample_env)
                  sample_kibana 3 new_world))
        ++ evs
      ∧ retrieval_shape "soc" 30 evs.
Proof.
  apply (retrieval_failure_aborts_run
           (with_search_fault (ExternalError "ConnectionError") sample_env)
           sample_kibana sample_elastic (ai_analyst "k") 3 new_world
           (replicate 7 (PDict ∅))).
  - vm_compute. reflexivity.
  - vm_compute. reflexivity.
Defined.

(** ** The operations outside the pipeline *)

Lemma filter_id_none (docs : list Hit) signal_id :
  Forall (λ d, _id d ≠ signal_id) docs → filter (λ d, _id d = signal_id) docs = [].
Proof.
  induction 1 as [|d docs Hd _ IH]; [done|]. by rewrite filter_cons_False.
Qed.

Lemma filter_id_unique (docs : list Hit) d :
  NoDup (_id <$> docs) → d ∈ docs →
  filter (λ d', _id d' = _id d) docs = [d].
Proof.
  induction docs as [|d0 docs IH]; intros Hnodup Hin.
  - by apply elem_of_nil in Hin.
  - rewrite fmap_cons in Hnodup. apply NoDup_cons in Hnodup as [Hfresh Hnodup].
    apply elem_of_cons in Hin as [->|Hin].
    + rewrite filter_cons_True by done. f_equal.
      apply filter_id_none. apply Forall_forall. intros d' Hd' Heq.
      apply Hfresh. rewrite <- Heq. by apply list_elem_of_fmap_2.
    + rewrite filter_cons_False; [by apply IH|].
      intros Heq. apply Hfresh. rewrite Heq. by apply list_elem_of_fmap_2.
Qed.

Lemma filter_id_absent (docs : list Hit) signal_id :
  signal_id ∉ _id <$> docs → filter (λ d, _id d = signal_id) docs = [].
Proof.
  intros Habsent. apply filter_id_none. apply Forall_forall. intros d Hd Heq.
  apply Habsent. rewrite <- Heq. by apply list_elem_of_fmap_2.
Qed.

(** X14. Bulk retrieval and point lookup agree: against a store with unique
    ids that serves its documents in pages and answers the lookup of an id
    with the documents carrying it, every record [get_signals] returns comes
    back, equal, from [get_signal_by_id] on its id. *)
Theorem lookup_returns_fetched_record env penv docs P sid this fuel space days w0
    signals w1 signal w :
  paged_store env docs P sid → 0 < P → length docs ≤ fuel →
  id_store penv docs →
  NoDup (_id <$> docs) →
  ElasticsearchConnector.get_signals env this fuel space days w0 = (Ok signals, w1) →
  signal ∈ signals →
  ∃ signal_id,
    signal !! "id" = Some (PStr signal_id)
    ∧ PointOperations.get_signal_by_id penv this signal_id space w = (Ok signal, w).
Proof.
  intros Hstore HP Hfuel Hlookup Hnodup Hfetch Hin.
  rewrite (get_signals_paged env docs P sid Hstore HP this fuel space days w0 Hfuel)
    in Hfetch.
  injection Hfetch as <- _.
  apply list_elem_of_fmap in Hin as (d & -> & Hd).
  exists (_id d). split; [apply record_of_hit_id|].
  unfold PointOperations.get_signal_by_id, mbind, M_bind, query.
  rewrite Hlookup, (filter_id_unique docs d Hnodup Hd). done.
Qed.

(** The theorem at the sample store, for its second record. *)
Lemma lookup_returns_fetched_record_witness :
  ∃ signal_id,
    ElasticsearchConnector.record_of_hit (hit "b") !! "id" = Some (PStr signal_id)
    ∧ PointOperations.get_signal_by_id (fake_point_env sample_docs) sample_elastic
        signal_id "soc" new_world
      = (Ok (ElasticsearchConnector.record_of_hit (hit "b")), new_world).
Proof.
  apply (lookup_returns_fetched_record quiet_env (fake_point_env sample_docs)
           sample_docs 2 "scroll-1" sample_elastic 3 "soc" 30 new_world
           sample_signals
           (snd (ElasticsearchConnector.get_signals quiet_env sample_elastic 3 "soc" 30
                   new_world))).
  - apply fake_env_paged.
  - lia.
  - simpl. lia.
  - done.
  - apply (bool_decide_unpack _). vm_compute. exact I.
  - vm_compute. reflexivity.
  - unfold sample_signals, sample_docs. apply list_elem_of_fmap_2.
    apply list_elem_of_further, list_elem_of_here.
Defined.

(** X15. The lookup of an id the store does not hold raises [ValueError]
    with a message that names the id, and changes nothing. *)
Theorem lookup_of_unknown_id penv docs this signal_id space w :
  id_store penv docs →
  signal_id ∉ _id <$> docs →
  PointOperations.get_signal_by_id penv this signal_id space w
  = (Raise (ValueError ("Signal with ID " +:+ signal_id +:+ " not found")), w).
Proof.
  intros Hlookup Habsent.
  unfold PointOperations.get_signal_by_id, mbind, M_bind, query.
  by rewrite Hlookup, (filter_id_absent docs signal_id Habsent).
Qed.

(** The theorem at the sample store, for an id it does not hold. *)
Lemma lookup_of_unknown_id_witness :
  PointOperations.get_signal_by_id (fake_point_env sample_docs) sample_elastic "z"
    "soc" new_world
  = (Raise (ValueError ("Signal with ID " +:+ "z" +:+ " not found")), new_world).
Proof.
  apply (lookup_of_unknown_id (fake_point_env sample_docs) sample_docs sample_elastic
           "z" "soc" new_world).
  - done.
  - apply (bool_decide_unpack _). vm_compute. exact I.
Defined.

(** X16. Whatever the store answers, a record that [get_signal_by_id]
    returns can be put through the loop of [main] on its own: it carries the
    id of the hit it was built from, so the loop completes and prints one
    line for it, the success line or the failure line with that id. *)
Theorem looked_up_record_is_processed `{Builtins} penv env kibana analyst this signal_id
    space w0 signal w1 w :
  PointOperations.get_signal_by_id penv this signal_id space w0 = (Ok signal, w1) →
  ∃ id entry w',
    signal !! "id" = Some id
    ∧ for_each env kibana analyst [signal] w = (Ok (), w')
    ∧ entry.1 = id
    ∧ stdout w' = stdout w ++ [report_line entry].
Proof.
  unfold PointOperations.get_signal_by_id, mbind, M_bind, query.
  destruct (es_lookup penv _ _ _) as [e|response]; [done|].
  destruct (total_value response =? 0)%Z; [done|].
  destruct (lookup_hits response) as [|hit hits]; [done|]. intros [= <- <-].
  destruct (for_each_run env kibana analyst [ElasticsearchConnector.record_of_hit hit])
    with (w := w) as (log & w' & Hloop & Hrun).
  { repeat constructor. apply fetched_has_id. by exists hit. }
  pose proof (run_ids _ _ _ _ _ _ _ Hrun) as Hids.
  pose proof (run_stdout _ _ _ _ _ _ _ Hrun) as Hout.
  apply Forall2_cons_inv_l in Hids as (entry & log' & Hid & Hnil & ->).
  apply Forall2_nil_inv_l in Hnil as ->.
  exists entry.1, entry, w'. done.
Qed.

(** The theorem at the second sample record, looked up by its id. *)
Lemma looked_up_record_is_processed_witness :
  ∃ id entry w',
    ElasticsearchConnector.record_of_hit (hit "b") !! "id" = Some id
    ∧ for_each sample_env sample_kibana (ai_analyst "k")
        [ElasticsearchConnector.record_of_hit (hit "b")] new_world = (Ok (), w')
    ∧ entry.1 = id
    ∧ stdout w' = stdout new_world ++ [report_line entry].
Proof.
  apply (looked_up_record_is_processed (fake_point_env sample_docs) sample_env
           sample_kibana (ai_analyst "k") sample_elastic "b" "soc" new_world
           (ElasticsearchConnector.record_of_hit (hit "b")) new_world new_world).
  vm_compute. reflexivity.
Defined.

(** X17. [patch_rule] lets the updates override the rule it addresses: when
    the updates carry a ["rule_id"] key, the payload sent is the updates
    themselves and the [rule_id] argument plays no part in the request. *)
Theorem patch_rule_id_overridden penv this rule_id rule_id' updates w :
  is_Some (updates !! "rule_id") →
  PointOperations.patch_payload rule_id updates = updates
  ∧ PointOperations.patch_rule penv this rule_id updates w
    = PointOperations.patch_rule penv this rule_id' updates w.
Proof.
  intros [v Hv].
  assert (∀ r, PointOperations.patch_payload r updates = updates) as Hpayload.
  { intros r. unfold PointOperations.patch_payload. apply map_eq. intros key.
    rewrite lookup_union. destruct (decide (key = "rule_id")) as [->|Hne].
    - by rewrite Hv, lookup_singleton_eq.
    - rewrite lookup_singleton_ne by done. by destruct (updates !! key). }
  split; [apply Hpayload|].
  unfold PointOperations.patch_rule. by rewrite !Hpayload.
Qed.

(** The theorem at updates that name another rule. *)
Lemma patch_rule_id_overridden_witness :
  PointOperations.patch_payload "rule-a" {[ "rule_id" := PStr "rule-b" ]}
  = {[ "rule_id" := PStr "rule-b" ]}
  ∧ PointOperations.patch_rule (fake_point_env []) sample_kibana "rule-a"
      {[ "rule_id" := PStr "rule-b" ]} new_world
    = PointOperations.patch_rule (fake_point_env []) sample_kibana "rule-c"
        {[ "rule_id" := PStr "rule-b" ]} new_world.
Proof.
  apply (patch_rule_id_overridden (fake_point_env []) sample_kibana "rule-a" "rule-c"
           {[ "rule_id" := PStr "rule-b" ]} new_world).
  rewrite lookup_singleton_eq. by eexists.
Defined.
